(** * Stock screener front end: query building, fetch and search coordination

    A shallow embedding of the dashboard's logic
    (frontend/src/lib/api.ts, frontend/src/app/page.tsx, the SearchBar,
    FilterPanel, RiskInputPanel and Top10Table components) and the
    properties of its specification.

    JavaScript numbers are IEEE 754 binary64 values: they are modelled by
    Rocq's primitive floats, so products such as 10000000 * 0.01 are the
    ones the browser computes. React state is a record, a state setter is a
    record update, and an async function is split at its await: the part
    that runs when it is called, and the part that resumes when the awaited
    request settles. *)

From Stdlib Require Import ZArith List String Bool Lia Floats Uint63.
Import ListNotations.

Set Warnings "-inexact-float".
Local Open Scope string_scope.

(** ** JavaScript values and built-ins used by the components *)

Module JS.

Definition number := float.

(** ToBoolean on a number: +0, -0 and NaN are falsy. *)
Definition truthy (x : number) : bool :=
  negb (PrimFloat.eqb x 0%float) && negb (PrimFloat.is_nan x).

(** ToBoolean on an optional number ([undefined] is falsy). *)
Definition truthy_opt (x : option number) : bool :=
  match x with
  | Some v => truthy v
  | None => false
  end.

(** ToBoolean on a string: only the empty string is falsy. *)
Definition truthy_string (s : string) : bool :=
  negb (String.length s =? 0)%nat.

(** The number whose value is the integer [z] (exact for |z| < 2^53). *)
Definition of_Z (z : Z) : number :=
  if (z <? 0)%Z then PrimFloat.opp (PrimFloat.of_uint63 (Uint63.of_Z (- z)))
  else PrimFloat.of_uint63 (Uint63.of_Z z).

(** A finite non-zero number is [M * 2^e] for a signed integer [M]. *)
Definition signed (s : bool) (m : positive) : Z :=
  if s then Z.neg m else Z.pos m.

(** [Math.round]: the closest integer, ties towards +infinity, that is
    floor(x + 1/2) computed exactly; the sign of a zero result is the
    sign of [x]. *)
Definition Math_round (x : number) : number :=
  match Prim2SF x with
  | S754_finite s m e =>
      if (0 <=? e)%Z then x
      else
        let k := (- e)%Z in
        let r := Z.shiftr (2 * signed s m + 2 ^ k) (k + 1) in
        if s then PrimFloat.opp (PrimFloat.of_uint63 (Uint63.of_Z (- r)))
        else PrimFloat.of_uint63 (Uint63.of_Z r)
  | _ => x
  end.

(** [Math.floor]. *)
Definition Math_floor (x : number) : number :=
  match Prim2SF x with
  | S754_finite s m e =>
      if (0 <=? e)%Z then x
      else of_Z (Z.shiftr (signed s m) (- e))
  | _ => x
  end.

(** [Math.min] and [Math.max] on two numbers, neither of them NaN. *)
Definition Math_min (x y : number) : number :=
  if PrimFloat.ltb y x then y else x.

Definition Math_max (x y : number) : number :=
  if PrimFloat.ltb x y then y else x.

(** What a [catch] clause can receive from the network layer. *)
Inductive Error :=
| TypeError_fetch            (* fetch() rejected: network or transport failure *)
| SyntaxError_json           (* response.json() rejected: malformed body *)
| Error_message (msg : string). (* new Error(msg) *)

(** The text put in a URL for a value: a string as it is, a number
    through [toString()]. [NumberText x] stands for [x.toString()]. *)
Inductive ParamValue :=
| Text (s : string)
| NumberText (x : number).

(** [URLSearchParams]: an ordered list of name/value pairs. *)
Definition URLSearchParams := list (string * ParamValue).

Fixpoint delete_name (name : string) (sp : URLSearchParams) : URLSearchParams :=
  match sp with
  | [] => []
  | (k, v) :: rest =>
      if String.eqb k name then delete_name name rest
      else (k, v) :: delete_name name rest
  end.

(** [sp.set(name, value)]: overwrite the first pair called [name] and drop
    the others, or append a new pair. *)
Fixpoint set (name : string) (value : ParamValue) (sp : URLSearchParams)
  : URLSearchParams :=
  match sp with
  | [] => [(name, value)]
  | (k, v) :: rest =>
      if String.eqb k name then (k, value) :: delete_name name rest
      else (k, v) :: set name value rest
  end.

(** [sp.get(name)]: the first value called [name] ([None] for null). *)
Fixpoint get (name : string) (sp : URLSearchParams) : option ParamValue :=
  match sp with
  | [] => None
  | (k, v) :: rest => if String.eqb k name then Some v else get name rest
  end.

(** [sp.has(name)]. *)
Definition has (name : string) (sp : URLSearchParams) : bool :=
  match get name sp with
  | Some _ => true
  | None => false
  end.

(** A GET request: the path below the API base URL and the query. The URL
    text is [API_BASE_URL ++ path ++ "?" ++ search.toString()]. *)
Record Request := mkRequest {
  path : string;
  search : URLSearchParams
}.

(** How [fetch(url)] followed by [response.json()] can settle. *)
Inductive FetchResult (A : Type) :=
| NetworkFailure                       (* the fetch promise rejects *)
| HttpResponse (ok : bool) (body : option A).
  (* [ok] is response.ok; [body] is the parsed JSON, None when parsing throws *)

Arguments NetworkFailure {A}.
Arguments HttpResponse {A} ok body.

End JS.

(** ** frontend/src/lib/api.ts *)

Module Api.
Import JS.

Inductive Market := KOSPI | KOSDAQ.

(** The [market] of [Top10Params]: 'KOSPI' | 'KOSDAQ' | 'ALL'. *)
Inductive MarketFilter := Only (m : Market) | ALL.

Inductive SortBy := by_value | by_weighted.

Definition market_text (m : Market) : string :=
  match m with
  | KOSPI => "KOSPI"
  | KOSDAQ => "KOSDAQ"
  end.

Definition market_filter_text (m : MarketFilter) : string :=
  match m with
  | Only x => market_text x
  | ALL => "ALL"
  end.

Definition sort_by_text (s : SortBy) : string :=
  match s with
  | by_value => "value"
  | by_weighted => "weighted"
  end.

Record Symbol := mkSymbol {
  symbol_code : string;
  symbol_name : string;
  symbol_market : Market
}.

Record Quote := mkQuote {
  quote_code : string;
  quote_name : string;
  quote_market : Market;
  quote_price : number;
  quote_chg_pct : number;
  quote_volume : number;
  quote_value : number;
  quote_asof : string
}.

Record Top10Item := mkTop10Item {
  rank : number;
  code : string;
  name : string;
  item_market : Market;
  price : number;
  chg_pct : number;
  value : number;
  stop_price : option number;
  max_shares : option number;
  max_investment : option number;
  risk_amount : option number
}.

Record Top10Response := mkTop10Response {
  response_asof : string;
  items : list Top10Item
}.

(** Every field is optional: [None] is an absent (or undefined) property. *)
Record Top10Params := mkTop10Params {
  market : option MarketFilter;
  min_value : option number;
  min_chg_pct : option number;
  max_chg_pct : option number;
  min_price : option number;
  max_price : option number;
  sort_by : option SortBy;
  account_size : option number;
  risk_pct : option number;
  stop_pct : option number;
  cap_pct : option number
}.

(** [params[key]] as the text it would be sent as: the object seen as a
    map from property names to values. *)
Definition property (params : Top10Params) (key : string) : option ParamValue :=
  if String.eqb key "market" then option_map (fun m => Text (market_filter_text m)) (market params)
  else if String.eqb key "min_value" then option_map NumberText (min_value params)
  else if String.eqb key "min_chg_pct" then option_map NumberText (min_chg_pct params)
  else if String.eqb key "max_chg_pct" then option_map NumberText (max_chg_pct params)
  else if String.eqb key "min_price" then option_map NumberText (min_price params)
  else if String.eqb key "max_price" then option_map NumberText (max_price params)
  else if String.eqb key "sort_by" then option_map (fun s => Text (sort_by_text s)) (sort_by params)
  else if String.eqb key "account_size" then option_map NumberText (account_size params)
  else if String.eqb key "risk_pct" then option_map NumberText (risk_pct params)
  else if String.eqb key "stop_pct" then option_map NumberText (stop_pct params)
  else if String.eqb key "cap_pct" then option_map NumberText (cap_pct params)
  else None.

(** [if (x) sp.set(name, x)] for a string-valued field. *)
Definition set_if_truthy (name : string) (x : option string)
  (sp : URLSearchParams) : URLSearchParams :=
  match x with
  | Some s => if truthy_string s then set name (Text s) sp else sp
  | None => sp
  end.

(** [if (x !== undefined) sp.set(name, x.toString())]. *)
Definition set_if_defined (name : string) (x : option number)
  (sp : URLSearchParams) : URLSearchParams :=
  match x with
  | Some v => set name (NumberText v) sp
  | None => sp
  end.

(** The query [getTop10] builds before it calls fetch. *)
Definition top10_searchParams (params : Top10Params) : URLSearchParams :=
  let sp := [] in
  let sp := set_if_truthy "market" (option_map market_filter_text (market params)) sp in
  let sp := set_if_defined "min_value" (min_value params) sp in
  let sp := set_if_defined "min_chg_pct" (min_chg_pct params) sp in
  let sp := set_if_defined "max_chg_pct" (max_chg_pct params) sp in
  let sp := set_if_defined "min_price" (min_price params) sp in
  let sp := set_if_defined "max_price" (max_price params) sp in
  let sp := set_if_truthy "sort_by" (option_map sort_by_text (sort_by params)) sp in
  let sp := set_if_defined "account_size" (account_size params) sp in
  let sp := set_if_defined "risk_pct" (risk_pct params) sp in
  let sp := set_if_defined "stop_pct" (stop_pct params) sp in
  let sp := set_if_defined "cap_pct" (cap_pct params) sp in
  sp.

(** [getTop10(params)] up to its first await: the request it sends. *)
Definition getTop10_request (params : Top10Params) : Request :=
  mkRequest "/top10" (top10_searchParams params).

(** [getTop10] after the await: throw on a failed response, else the JSON. *)
Definition getTop10_settle (r : FetchResult Top10Response)
  : Error + Top10Response :=
  match r with
  | NetworkFailure => inl TypeError_fetch
  | HttpResponse false _ => inl (Error_message "Failed to fetch top 10")
  | HttpResponse true None => inl SyntaxError_json
  | HttpResponse true (Some v) => inr v
  end.

(** [getSymbols(query, market)] up to its first await. *)
Definition getSymbols_request (query market : option string) : Request :=
  let sp := [] in
  let sp := set_if_truthy "query" query sp in
  let sp :=
    match market with
    | Some m =>
        if truthy_string m && negb (String.eqb m "ALL")
        then set "market" (Text m) sp else sp
    | None => sp
    end in
  mkRequest "/symbols" sp.

Definition getSymbols_settle (r : FetchResult (list Symbol))
  : Error + list Symbol :=
  match r with
  | NetworkFailure => inl TypeError_fetch
  | HttpResponse false _ => inl (Error_message "Failed to fetch symbols")
  | HttpResponse true None => inl SyntaxError_json
  | HttpResponse true (Some v) => inr v
  end.

(** [getQuote(code)]: the code is part of the path. *)
Definition getQuote_request (code : string) : Request :=
  mkRequest ("/quote/" ++ code) [].

Definition getQuote_settle (r : FetchResult Quote) : Error + Quote :=
  match r with
  | NetworkFailure => inl TypeError_fetch
  | HttpResponse false _ => inl (Error_message "Failed to fetch quote")
  | HttpResponse true None => inl SyntaxError_json
  | HttpResponse true (Some v) => inr v
  end.

End Api.

(** ** Async function bodies: state, exceptions, try/catch/finally *)

Module Effect.
Import JS.

Section WithState.
Context {St : Type}.

(** A piece of an async function running over the state [St]: it ends
    normally with a value or throws. *)
Definition M (A : Type) : Type := St -> (Error + A) * St.

Definition ret {A} (a : A) : M A := fun s => (inr a, s).

Definition bind {A B} (m : M A) (f : A -> M B) : M B :=
  fun s =>
    match m s with
    | (inl e, s') => (inl e, s')
    | (inr a, s') => f a s'
    end.

(** A state setter or another call that cannot throw. *)
Definition update (f : St -> St) : M unit := fun s => (inr tt, f s).

(** Resuming from [await p] once [p] has settled: the value, or a throw. *)
Definition await {A} (settled : Error + A) : M A := fun s => (settled, s).

(** [try { body } catch (err) { handler } finally { fin }]: the finalizer
    always runs; the result is the body's, or the handler's when the body
    threw, unless the finalizer itself throws. *)
Definition try_catch_finally {A} (body : M A) (handler : Error -> M A)
  (fin : M unit) : M A :=
  fun s =>
    let '(r1, s1) := body s in
    let '(r2, s2) :=
      match r1 with
      | inl e => handler e s1
      | inr a => (inr a, s1)
      end in
    let '(r3, s3) := fin s2 in
    match r3 with
    | inl e => (inl e, s3)
    | inr _ => (r2, s3)
    end.

(** [try { body } catch (err) { handler }]. *)
Definition try_catch {A} (body : M A) (handler : Error -> M A) : M A :=
  try_catch_finally body handler (ret tt).

End WithState.

Declare Scope effect_scope.
Delimit Scope effect_scope with effect.
Notation "x <- m ;; k" := (bind m (fun x => k))
  (at level 61, m at next level, right associativity) : effect_scope.
Notation "m ;; k" := (bind m (fun _ => k))
  (at level 61, right associativity) : effect_scope.

End Effect.

(** ** FilterPanel.tsx and RiskInputPanel.tsx *)

Module Panels.
Import JS Api.

(** The [(key, value)] pairs the two panels pass to their [handleChange]:
    the selects give a market or a sort key, every number input gives
    [Number(text)] (divided by 100 for the three percentages) or
    [undefined] when the box is empty. *)
Inductive FieldChange :=
| change_market (m : MarketFilter)
| change_min_value (v : option number)
| change_sort_by (s : SortBy)
| change_min_chg_pct (v : option number)
| change_max_chg_pct (v : option number)
| change_min_price (v : option number)
| change_max_price (v : option number)
| change_account_size (v : option number)
| change_risk_pct (v : option number)
| change_stop_pct (v : option number)
| change_cap_pct (v : option number).

(** [{ ...params, [key]: value }]. *)
Definition spread (p : Top10Params) (c : FieldChange) : Top10Params :=
  match c with
  | change_market m =>
      mkTop10Params (Some m) (min_value p) (min_chg_pct p) (max_chg_pct p)
        (min_price p) (max_price p) (sort_by p) (account_size p) (risk_pct p)
        (stop_pct p) (cap_pct p)
  | change_min_value v =>
      mkTop10Params (market p) v (min_chg_pct p) (max_chg_pct p)
        (min_price p) (max_price p) (sort_by p) (account_size p) (risk_pct p)
        (stop_pct p) (cap_pct p)
  | change_sort_by x =>
      mkTop10Params (market p) (min_value p) (min_chg_pct p) (max_chg_pct p)
        (min_price p) (max_price p) (Some x) (account_size p) (risk_pct p)
        (stop_pct p) (cap_pct p)
  | change_min_chg_pct v =>
      mkTop10Params (market p) (min_value p) v (max_chg_pct p)
        (min_price p) (max_price p) (sort_by p) (account_size p) (risk_pct p)
        (stop_pct p) (cap_pct p)
  | change_max_chg_pct v =>
      mkTop10Params (market p) (min_value p) (min_chg_pct p) v
        (min_price p) (max_price p) (sort_by p) (account_size p) (risk_pct p)
        (stop_pct p) (cap_pct p)
  | change_min_price v =>
      mkTop10Params (market p) (min_value p) (min_chg_pct p) (max_chg_pct p)
        v (max_price p) (sort_by p) (account_size p) (risk_pct p)
        (stop_pct p) (cap_pct p)
  | change_max_price v =>
      mkTop10Params (market p) (min_value p) (min_chg_pct p) (max_chg_pct p)
        (min_price p) v (sort_by p) (account_size p) (risk_pct p)
        (stop_pct p) (cap_pct p)
  | change_account_size v =>
      mkTop10Params (market p) (min_value p) (min_chg_pct p) (max_chg_pct p)
        (min_price p) (max_price p) (sort_by p) v (risk_pct p)
        (stop_pct p) (cap_pct p)
  | change_risk_pct v =>
      mkTop10Params (market p) (min_value p) (min_chg_pct p) (max_chg_pct p)
        (min_price p) (max_price p) (sort_by p) (account_size p) v
        (stop_pct p) (cap_pct p)
  | change_stop_pct v =>
      mkTop10Params (market p) (min_value p) (min_chg_pct p) (max_chg_pct p)
        (min_price p) (max_price p) (sort_by p) (account_size p) (risk_pct p)
        v (cap_pct p)
  | change_cap_pct v =>
      mkTop10Params (market p) (min_value p) (min_chg_pct p) (max_chg_pct p)
        (min_price p) (max_price p) (sort_by p) (account_size p) (risk_pct p)
        (stop_pct p) v
  end.

(** What a panel line shows: [Intl.NumberFormat('ko-KR').format(n)], kept
    as the number handed to the formatter, or the dash. *)
Inductive Shown :=
| Formatted (n : number)
| Dash.

(** [x ?? d]. *)
Definition nullish (x : option number) (d : number) : number :=
  match x with
  | Some v => v
  | None => d
  end.

(** RiskInputPanel, the line under the risk input:
    [account_size && risk_pct
       ? format(Math.round(account_size * (risk_pct ?? 0.01))) : '-']. *)
Definition allowed_loss_line (params : Top10Params) : Shown :=
  match account_size params with
  | Some a =>
      if truthy a && truthy_opt (risk_pct params)
      then Formatted (Math_round (a * nullish (risk_pct params) 0.01)%float)
      else Dash
  | None => Dash
  end.

(** RiskInputPanel, the line under the cap input:
    [account_size && cap_pct
       ? format(Math.round(account_size * (cap_pct ?? 0.10))) : '-']. *)
Definition max_investment_line (params : Top10Params) : Shown :=
  match account_size params with
  | Some a =>
      if truthy a && truthy_opt (cap_pct params)
      then Formatted (Math_round (a * nullish (cap_pct params) 0.10)%float)
      else Dash
  | None => Dash
  end.

End Panels.

(** ** The sizing formula of the ranking service *)

Module RiskSizingFormula.
Import JS.

(** Modelled from the spec: the function that computes stop_price,
    max_shares and max_investment. The front end under study only displays
    these fields of a ranked item as the ranking service returns them; the
    steps below follow section 4.1 of the specification, on the same
    binary64 numbers. *)
Definition allowed_loss (account_size risk_fraction : number) : number :=
  (account_size * risk_fraction)%float.

(** Modelled from the spec: entry_price x (1 - stop_fraction), floored at 0. *)
Definition stop_price (entry_price stop_fraction : number) : number :=
  Math_max 0%float (entry_price * (1 - stop_fraction))%float.

(** Modelled from the spec: the loss per share if stopped. *)
Definition risk_per_share (entry_price stop_fraction : number) : number :=
  (entry_price * stop_fraction)%float.

(** Modelled from the spec: floor(allowed_loss / risk_per_share) when
    risk_per_share > 0, else the +infinity sentinel. *)
Definition max_shares_by_risk (allowed per_share : number) : number :=
  if PrimFloat.ltb 0%float per_share then Math_floor (allowed / per_share)%float
  else PrimFloat.infinity.

(** Modelled from the spec: account_size x cap_fraction. *)
Definition max_investment_by_cap (account_size cap_fraction : number) : number :=
  (account_size * cap_fraction)%float.

(** Modelled from the spec: floor(max_investment_by_cap / entry_price). *)
Definition max_shares_by_cap (by_cap entry_price : number) : number :=
  Math_floor (by_cap / entry_price)%float.

(** Modelled from the spec: min of the two bounds, floored at 0. *)
Definition max_shares (by_risk by_cap : number) : number :=
  Math_max 0%float (Math_min by_risk by_cap).

(** Modelled from the spec: max_shares x entry_price. *)
Definition max_investment (shares entry_price : number) : number :=
  (shares * entry_price)%float.

(** Modelled from the spec: SizingPreview, the four derived values. *)
Record SizingPreview := mkSizingPreview {
  preview_allowed_loss : number;
  preview_stop_price : number;
  preview_max_shares : number;
  preview_max_investment : number
}.

(** Modelled from the spec: compute(entry_price, account_size,
    risk_fraction, stop_fraction, cap_fraction), with no preview when
    account_size is absent or not positive. *)
Definition compute (entry_price : number) (account_size : option number)
  (risk_fraction stop_fraction cap_fraction : number) : option SizingPreview :=
  match account_size with
  | None => None
  | Some a =>
      if PrimFloat.ltb 0%float a then
        let loss := allowed_loss a risk_fraction in
        let by_risk :=
          max_shares_by_risk loss (risk_per_share entry_price stop_fraction) in
        let by_cap :=
          max_shares_by_cap (max_investment_by_cap a cap_fraction) entry_price in
        let shares := max_shares by_risk by_cap in
        Some (mkSizingPreview loss (stop_price entry_price stop_fraction)
                shares (max_investment shares entry_price))
      else None
  end.

End RiskSizingFormula.

(** ** Top10Table.tsx *)

Module Top10Table.
Import JS Api.

Inductive Column :=
| col_rank | col_name | col_price | col_change | col_value
| col_stop_price | col_max_shares | col_max_investment.

(** The text of a cell, before number formatting. *)
Inductive Cell :=
| cell_rank (r : number)
| cell_name (name code : string) (m : Market)
| cell_won (x : number)        (* formatNumber(x) followed by the won sign *)
| cell_percent (x : number)    (* formatPercent(x) *)
| cell_value (x : number)      (* formatValue(x) *)
| cell_shares (x : number)     (* formatNumber(x) followed by the share sign *)
| cell_dash.

Inductive View :=
| Spinner
| EmptyMessage
| Table (asof : option string) (header : list Column)
    (rows : list (list (Column * Cell))).

Definition is_sizing (c : Column) : bool :=
  match c with
  | col_stop_price | col_max_shares | col_max_investment => true
  | _ => false
  end.

(** [x ? render(x) : '-'] *)
Definition cell_or_dash (x : option number) (render : number -> Cell) : Cell :=
  match x with
  | Some v => if truthy v then render v else cell_dash
  | None => cell_dash
  end.

Definition header (showRisk : bool) : list Column :=
  [col_rank; col_name; col_price; col_change; col_value]
  ++ (if showRisk then [col_stop_price; col_max_shares; col_max_investment]
      else []).

Definition row (showRisk : bool) (item : Top10Item) : list (Column * Cell) :=
  [(col_rank, cell_rank (rank item));
   (col_name, cell_name (name item) (code item) (item_market item));
   (col_price, cell_won (price item));
   (col_change, cell_percent (chg_pct item));
   (col_value, cell_value (value item))]
  ++ (if showRisk then
        [(col_stop_price, cell_or_dash (stop_price item) cell_won);
         (col_max_shares, cell_or_dash (max_shares item) cell_shares);
         (col_max_investment, cell_or_dash (max_investment item) cell_won)]
      else []).

(** The component: a spinner while loading, a message for an empty list,
    the table otherwise. *)
Definition Top10Table (items : list Top10Item) (asof : string)
  (showRisk loading : bool) : View :=
  if loading then Spinner
  else if (List.length items =? 0)%nat then EmptyMessage
  else Table (if truthy_string asof then Some asof else None)
         (header showRisk) (map (row showRisk) items).

(** The sizing columns a view shows, in the header or in a row. *)
Definition sizing_header (v : View) : list Column :=
  match v with
  | Table _ hdr _ => filter is_sizing hdr
  | _ => []
  end.

Definition sizing_cells (v : View) : list (Column * Cell) :=
  match v with
  | Table _ _ rows => filter (fun c => is_sizing (fst c)) (List.concat rows)
  | _ => []
  end.

Definition sizing_rendered (v : View) : bool :=
  negb (List.length (sizing_header v) =? 0)%nat.

End Top10Table.

(** ** page.tsx: the Home component (ranked-list coordinator) *)

Module Home.
Import JS Api Panels Effect.
Local Open Scope effect_scope.

(** The filter object held in React state. [setFilters] compares objects
    by identity ([Object.is]), so the object carries one. *)
Record FiltersObject := mkFilters {
  oid : nat;
  contents : Top10Params
}.

(** Which continuation a request in flight resumes. *)
Inductive Awaiting := await_top10 | await_quote.

Record State := mkState {
  (* the component's state hooks *)
  filters : FiltersObject;
  top10 : list Top10Item;
  asof : string;
  loading : bool;
  selectedQuote : option Quote;
  error : option string;
  (* what surrounds the component *)
  next_oid : nat;                      (* identity of the next object created *)
  interval : option FiltersObject;     (* the running 5-minute timer, with the
                                          filters its fetchTop10 closed over *)
  network : list Request;              (* every request sent, oldest first;
                                          a request's id is its position *)
  inflight : list (nat * Awaiting);    (* requests that have not settled *)
  console : list string;               (* console.error lines *)
  unhandled : list Error               (* rejections nobody caught *)
}.

Definition with_filters (v : FiltersObject) (s : State) : State :=
  mkState v (top10 s) (asof s) (loading s) (selectedQuote s) (error s)
    (next_oid s) (interval s) (network s) (inflight s) (console s) (unhandled s).

Definition setTop10 (v : list Top10Item) (s : State) : State :=
  mkState (filters s) v (asof s) (loading s) (selectedQuote s) (error s)
    (next_oid s) (interval s) (network s) (inflight s) (console s) (unhandled s).

Definition setAsof (v : string) (s : State) : State :=
  mkState (filters s) (top10 s) v (loading s) (selectedQuote s) (error s)
    (next_oid s) (interval s) (network s) (inflight s) (console s) (unhandled s).

Definition setLoading (v : bool) (s : State) : State :=
  mkState (filters s) (top10 s) (asof s) v (selectedQuote s) (error s)
    (next_oid s) (interval s) (network s) (inflight s) (console s) (unhandled s).

Definition setSelectedQuote (v : option Quote) (s : State) : State :=
  mkState (filters s) (top10 s) (asof s) (loading s) v (error s)
    (next_oid s) (interval s) (network s) (inflight s) (console s) (unhandled s).

Definition setError (v : option string) (s : State) : State :=
  mkState (filters s) (top10 s) (asof s) (loading s) (selectedQuote s) v
    (next_oid s) (interval s) (network s) (inflight s) (console s) (unhandled s).

Definition with_next_oid (v : nat) (s : State) : State :=
  mkState (filters s) (top10 s) (asof s) (loading s) (selectedQuote s) (error s)
    v (interval s) (network s) (inflight s) (console s) (unhandled s).

(** [clearInterval] of the old timer and [setInterval(fetchTop10, 300000)]. *)
Definition restart_interval (closure : FiltersObject) (s : State) : State :=
  mkState (filters s) (top10 s) (asof s) (loading s) (selectedQuote s) (error s)
    (next_oid s) (Some closure) (network s) (inflight s) (console s) (unhandled s).

(** [fetch(url)]: the request leaves now and settles later. *)
Definition send (req : Request) (k : Awaiting) (s : State) : State :=
  mkState (filters s) (top10 s) (asof s) (loading s) (selectedQuote s) (error s)
    (next_oid s) (interval s) (network s ++ [req])
    (inflight s ++ [(List.length (network s), k)]) (console s) (unhandled s).

Definition settled (id : nat) (s : State) : State :=
  mkState (filters s) (top10 s) (asof s) (loading s) (selectedQuote s) (error s)
    (next_oid s) (interval s) (network s)
    (filter (fun p => negb (fst p =? id)%nat) (inflight s))
    (console s) (unhandled s).

Definition console_error (line : string) (s : State) : State :=
  mkState (filters s) (top10 s) (asof s) (loading s) (selectedQuote s) (error s)
    (next_oid s) (interval s) (network s) (inflight s) (console s ++ [line])
    (unhandled s).

(** An async function whose promise nobody awaits: a rejection is an
    unhandled one. *)
Definition detached (m : M unit) (s : State) : State :=
  match m s with
  | (inr _, s') => s'
  | (inl e, s') =>
      mkState (filters s') (top10 s') (asof s') (loading s') (selectedQuote s')
        (error s') (next_oid s') (interval s') (network s') (inflight s')
        (console s') (unhandled s' ++ [e])
  end.

Definition initial_filters : Top10Params :=
  mkTop10Params (Some ALL) None None None None None (Some by_value) None
    (Some 0.01%float) (Some 0.03%float) (Some 0.10%float).

(** The first render, before any effect has run. *)
Definition initial : State :=
  mkState (mkFilters 0 initial_filters) [] "" false None None
    1 None [] [] [] [].

Definition failure_message : string :=
  "데이터를 불러오는데 실패했습니다. 잠시 후 다시 시도해주세요.".

(** [fetchTop10], from the call to the await: [closure] is the filter
    object the callback closed over. *)
Definition fetchTop10_call (closure : FiltersObject) (s : State) : State :=
  let s := setLoading true s in
  let s := setError None s in
  send (getTop10_request (contents closure)) await_top10 s.

(** [fetchTop10], from the await to the end. *)
Definition fetchTop10_resume (r : FetchResult Top10Response) : M unit :=
  try_catch_finally
    (response <- await (getTop10_settle r) ;;
     update (setTop10 (items response)) ;;
     update (setAsof (response_asof response)))
    (fun err =>
       update (console_error "Failed to fetch top 10:") ;;
       update (setError (Some failure_message)) ;;
       update (setTop10 []))
    (update (setLoading false)).

(** [handleSymbolSelect], before and after its await. *)
Definition handleSymbolSelect_call (symbol : Symbol) (s : State) : State :=
  send (getQuote_request (symbol_code symbol)) await_quote s.

Definition handleSymbolSelect_resume (r : FetchResult Quote) : M unit :=
  try_catch
    (quote <- await (getQuote_settle r) ;;
     update (setSelectedQuote (Some quote)))
    (fun err => update (console_error "Failed to fetch quote:")).

(** A render with a new [filters] object: [useCallback] yields a new
    [fetchTop10], so both effects that depend on it run again. *)
Definition effects (s : State) : State :=
  let s := fetchTop10_call (filters s) s in
  restart_interval (filters s) s.

(** [setFilters(obj)]: React keeps the old state, and renders nothing,
    when the new value is the same object. *)
Definition setFilters (obj : FiltersObject) (s : State) : State :=
  if (oid obj =? oid (filters s))%nat then s
  else effects (with_filters obj s).

(** [handleChange(key, value)] of either panel:
    [onChange({ ...params, [key]: value })], a new object every time. *)
Definition handleChange (c : FieldChange) (s : State) : State :=
  let obj := mkFilters (next_oid s) (spread (contents (filters s)) c) in
  setFilters obj (with_next_oid (S (next_oid s)) s).

Inductive Event :=
| Mount                                  (* the effects of the first render *)
| Change (c : FieldChange)               (* an edit in one of the panels *)
| ClickRefresh                           (* the refresh button *)
| IntervalTick                           (* the 5-minute timer fires *)
| Top10Settles (id : nat) (r : FetchResult Top10Response)
| SelectSymbol (symbol : Symbol)         (* SearchBar's onSelect *)
| QuoteSettles (id : nat) (r : FetchResult Quote)
| CloseCard.

Definition is_inflight (id : nat) (k : Awaiting) (s : State) : bool :=
  existsb
    (fun p =>
       (fst p =? id)%nat &&
       match snd p, k with
       | await_top10, await_top10 | await_quote, await_quote => true
       | _, _ => false
       end)
    (inflight s).

Definition step (s : State) (e : Event) : State :=
  match e with
  | Mount => effects s
  | Change c => handleChange c s
  | ClickRefresh =>
      (* the button is disabled while loading *)
      if loading s then s else fetchTop10_call (filters s) s
  | IntervalTick =>
      match interval s with
      | Some closure => fetchTop10_call closure s
      | None => s
      end
  | Top10Settles id r =>
      if is_inflight id await_top10 s
      then detached (fetchTop10_resume r) (settled id s)
      else s
  | SelectSymbol symbol => handleSymbolSelect_call symbol s
  | QuoteSettles id r =>
      if is_inflight id await_quote s
      then detached (handleSymbolSelect_resume r) (settled id s)
      else s
  | CloseCard => setSelectedQuote None s
  end.

Definition run (s : State) (events : list Event) : State :=
  fold_left step events s.

(** [showRisk] of the render. *)
Definition showRisk (s : State) : bool :=
  match account_size (contents (filters s)) with
  | Some a => PrimFloat.ltb 0%float a
  | None => false
  end.

(** Every object [handleChange] creates is new: the identity held in state
    is below the next one to be given out. *)
Definition fresh (s : State) : Prop := oid (filters s) < next_oid s.

(** What the render hands to Top10Table. *)
Definition table (s : State) : Top10Table.View :=
  Top10Table.Top10Table (top10 s) (asof s) (showRisk s) (loading s).

End Home.

(** ** SearchBar (symbol search coordinator) *)

Module SearchBar.
Import JS Api Effect.
Local Open Scope effect_scope.

Record State := mkState {
  (* the component's state hooks *)
  query : string;
  results : list Symbol;
  isOpen : bool;
  loading : bool;
  (* what surrounds the component *)
  now : nat;                        (* the clock, in milliseconds *)
  timer : option (nat * string);    (* the pending setTimeout: when it is due
                                       and the query its callback closed over *)
  network : list Request;
  inflight : list nat;
  console : list string;
  unhandled : list Error;
  selected : list Symbol            (* symbols handed to onSelect *)
}.

Definition with_query (v : string) (s : State) : State :=
  mkState v (results s) (isOpen s) (loading s) (now s) (timer s) (network s)
    (inflight s) (console s) (unhandled s) (selected s).

Definition setResults (v : list Symbol) (s : State) : State :=
  mkState (query s) v (isOpen s) (loading s) (now s) (timer s) (network s)
    (inflight s) (console s) (unhandled s) (selected s).

Definition setIsOpen (v : bool) (s : State) : State :=
  mkState (query s) (results s) v (loading s) (now s) (timer s) (network s)
    (inflight s) (console s) (unhandled s) (selected s).

Definition setLoading (v : bool) (s : State) : State :=
  mkState (query s) (results s) (isOpen s) v (now s) (timer s) (network s)
    (inflight s) (console s) (unhandled s) (selected s).

Definition with_now (v : nat) (s : State) : State :=
  mkState (query s) (results s) (isOpen s) (loading s) v (timer s) (network s)
    (inflight s) (console s) (unhandled s) (selected s).

Definition with_timer (v : option (nat * string)) (s : State) : State :=
  mkState (query s) (results s) (isOpen s) (loading s) (now s) v (network s)
    (inflight s) (console s) (unhandled s) (selected s).

Definition send (req : Request) (s : State) : State :=
  mkState (query s) (results s) (isOpen s) (loading s) (now s) (timer s)
    (network s ++ [req]) (inflight s ++ [List.length (network s)])
    (console s) (unhandled s) (selected s).

Definition settled (id : nat) (s : State) : State :=
  mkState (query s) (results s) (isOpen s) (loading s) (now s) (timer s)
    (network s) (filter (fun i => negb (i =? id)%nat) (inflight s))
    (console s) (unhandled s) (selected s).

Definition console_error (line : string) (s : State) : State :=
  mkState (query s) (results s) (isOpen s) (loading s) (now s) (timer s)
    (network s) (inflight s) (console s ++ [line]) (unhandled s) (selected s).

Definition onSelect (symbol : Symbol) (s : State) : State :=
  mkState (query s) (results s) (isOpen s) (loading s) (now s) (timer s)
    (network s) (inflight s) (console s) (unhandled s) (selected s ++ [symbol]).

Definition detached (m : M unit) (s : State) : State :=
  match m s with
  | (inr _, s') => s'
  | (inl e, s') =>
      mkState (query s') (results s') (isOpen s') (loading s') (now s')
        (timer s') (network s') (inflight s') (console s') (unhandled s' ++ [e])
        (selected s')
  end.

(** The component after its first render and effect (the effect finds an
    empty query and sets the empty result list again). *)
Definition initial : State :=
  mkState "" [] false false 0 None [] [] [] [] [].

Definition debounce : nat := 300.

(** The timer callback, from its start to the await. *)
Definition lookup_call (closure : string) (s : State) : State :=
  let s := setLoading true s in
  send (getSymbols_request (Some closure) None) s.

(** The timer callback, from the await to the end. *)
Definition lookup_resume (r : FetchResult (list Symbol)) : M unit :=
  try_catch_finally
    (symbols <- await (getSymbols_settle r) ;;
     update (setResults (firstn 10 symbols)) ;;
     update (setIsOpen true))
    (fun err => update (console_error "Search error:"))
    (update (setLoading false)).

(** The effect on [query]: the cleanup of its previous run
    ([clearTimeout]), then its body. *)
Definition effect (s : State) : State :=
  let s := with_timer None s in
  if (String.length (query s) <? 1)%nat then setResults [] s
  else with_timer (Some (now s + debounce, query s)) s.

(** [setQuery(text)]: nothing renders when the text is the one held. *)
Definition setQuery (text : string) (s : State) : State :=
  if String.eqb text (query s) then s
  else effect (with_query text s).

(** [handleSelect(symbol)]. *)
Definition handleSelect (symbol : Symbol) (s : State) : State :=
  let text := symbol_name symbol ++ " (" ++ symbol_code symbol ++ ")" in
  let changed := negb (String.eqb text (query s)) in
  let s := with_query text s in
  let s := setIsOpen false s in
  let s := onSelect symbol s in
  (* the render that follows runs the effect when the query changed *)
  if changed then effect s else s.

(** Time passes: a timer that is due runs its callback. *)
Definition elapse (dt : nat) (s : State) : State :=
  let s := with_now (now s + dt) s in
  match timer s with
  | Some (due, closure) =>
      if (due <=? now s)%nat then lookup_call closure (with_timer None s)
      else s
  | None => s
  end.

Inductive Event :=
| Input (text : string)           (* onChange of the text box *)
| Elapse (dt : nat)
| Settles (id : nat) (r : FetchResult (list Symbol))
| Select (symbol : Symbol)        (* a click on a result *)
| Focus.

Definition is_inflight (id : nat) (s : State) : bool :=
  existsb (fun i => (i =? id)%nat) (inflight s).

Definition step (s : State) (e : Event) : State :=
  match e with
  | Input text => setQuery text s
  | Elapse dt => elapse dt s
  | Settles id r =>
      if is_inflight id s
      then detached (lookup_resume r) (settled id s)
      else s
  | Select symbol => handleSelect symbol s
  | Focus =>
      if (0 <? List.length (results s))%nat then setIsOpen true s else s
  end.

Definition run (s : State) (events : list Event) : State :=
  fold_left step events s.

(** The debounce timer is pending for the text now held. *)
Definition armed (s : State) : Prop :=
  timer s = Some (now s + debounce, query s).

(** Keystrokes: each one comes [gap] milliseconds after the one before
    and changes the text to [text]. *)
Definition keystrokes (keys : list (nat * string)) : list Event :=
  flat_map (fun k => [Elapse (fst k); Input (snd k)]) keys.

(** Every keystroke comes within the debounce window of the one before,
    leaves a non-empty text, and changes the text. *)
Fixpoint within_window (previous : string) (keys : list (nat * string)) : Prop :=
  match keys with
  | [] => True
  | (gap, text) :: rest =>
      gap < debounce /\ text <> "" /\ text <> previous
      /\ within_window text rest
  end.

(** The result list is on screen: [isOpen && results.length > 0]. *)
Definition list_shown (s : State) : bool :=
  isOpen s && (0 <? List.length (results s))%nat.

End SearchBar.

(** ** The theme switcher script *)

Module ThemeSwitcher.
Import JS.

(** [localStorage]: string keys and string values; other scripts of the
    origin may keep entries of their own in it. *)
Definition Storage := list (string * string).

(** [localStorage.getItem(key)] ([None] for null). *)
Fixpoint getItem (key : string) (st : Storage) : option string :=
  match st with
  | [] => None
  | (k, v) :: rest => if String.eqb k key then Some v else getItem key rest
  end.

(** [localStorage.setItem(key, value)]. *)
Fixpoint setItem (key value : string) (st : Storage) : Storage :=
  match st with
  | [] => [(key, value)]
  | (k, v) :: rest =>
      if String.eqb k key then (k, value) :: rest
      else (k, v) :: setItem key value rest
  end.

(** What the script reads and writes: the [data-theme] attribute of the
    root element ([None] when the attribute is missing) and the storage. *)
Record Page := mkPage {
  data_theme : option string;
  localStorage : Storage
}.

(** [setTheme(theme)]. *)
Definition setTheme (theme : string) (p : Page) : Page :=
  mkPage (Some theme) (setItem "theme" theme (localStorage p)).

(** The click listener of the switcher button. *)
Definition onClick (p : Page) : Page :=
  match data_theme p with
  | Some currentTheme =>
      if String.eqb currentTheme "dark" then setTheme "light" p
      else setTheme "dark" p
  | None => setTheme "dark" p
  end.

(** The DOMContentLoaded listener:
    [localStorage.getItem('theme') || 'light']. *)
Definition onDOMContentLoaded (p : Page) : Page :=
  let savedTheme :=
    match getItem "theme" (localStorage p) with
    | Some t => if truthy_string t then t else "light"
    | None => "light"
    end in
  setTheme savedTheme p.

(** A page load starts from the attribute the markup has, keeps the
    storage, and fires DOMContentLoaded; a click toggles. *)
Inductive Event :=
| PageLoad (markup : option string)
| Click.

Definition step (p : Page) (e : Event) : Page :=
  match e with
  | PageLoad markup => onDOMContentLoaded (mkPage markup (localStorage p))
  | Click => onClick p
  end.

End ThemeSwitcher.

(** ** The panels' keys *)

Module PanelKeys.
Import JS Api Panels.

(** The property names of [Top10Params], in the order [getTop10] tests
    them. *)
Definition top10_keys : list string :=
  ["market"; "min_value"; "min_chg_pct"; "max_chg_pct"; "min_price";
   "max_price"; "sort_by"; "account_size"; "risk_pct"; "stop_pct"; "cap_pct"].

(** The [key] a panel passes to [handleChange]. *)
Definition change_key (c : FieldChange) : string :=
  match c with
  | change_market _ => "market"
  | change_min_value _ => "min_value"
  | change_sort_by _ => "sort_by"
  | change_min_chg_pct _ => "min_chg_pct"
  | change_max_chg_pct _ => "max_chg_pct"
  | change_min_price _ => "min_price"
  | change_max_price _ => "max_price"
  | change_account_size _ => "account_size"
  | change_risk_pct _ => "risk_pct"
  | change_stop_pct _ => "stop_pct"
  | change_cap_pct _ => "cap_pct"
  end.

(** The [value] a panel passes to [handleChange], as the text it would be
    sent as ([None] for undefined). *)
Definition change_value (c : FieldChange) : option ParamValue :=
  match c with
  | change_market m => Some (Text (market_filter_text m))
  | change_sort_by s => Some (Text (sort_by_text s))
  | change_min_value v | change_min_chg_pct v | change_max_chg_pct v
  | change_min_price v | change_max_price v | change_account_size v
  | change_risk_pct v | change_stop_pct v | change_cap_pct v =>
      option_map NumberText v
  end.

End PanelKeys.

(** ** Invariants of the two components *)

Module Invariants.
Import JS Api.

(** The page: the filter object is older than the next one to be made,
    and the 5-minute timer, once started, calls the [fetchTop10] of the
    current render. *)
Definition page_sound (s : Home.State) : Prop :=
  Home.fresh s
  /\ (Home.interval s = None \/ Home.interval s = Some (Home.filters s)).

(** The search box: a pending timer was set for the text now held, which
    is not empty; at most ten results are held. *)
Definition search_sound (s : SearchBar.State) : Prop :=
  (forall due closure,
     SearchBar.timer s = Some (due, closure) ->
     closure = SearchBar.query s /\ closure <> "")
  /\ List.length (SearchBar.results s) <= 10.

(** The text [handleSelect] puts in the box. *)
Definition display_text (symbol : Symbol) : string :=
  symbol_name symbol ++ " (" ++ symbol_code symbol ++ ")".

End Invariants.

(** ** RiskInputPanel.tsx: the three percentage boxes *)

Module PercentBoxes.
Import JS Api Panels.

(** What the user has typed in a number box: [None] for an empty box,
    [Some n] for a text that [Number] reads as [n]. *)
Definition Typed := option number.

(** [e.target.value ? Number(e.target.value) / 100 : undefined]. *)
Definition percent_value (typed : Typed) : option number :=
  option_map (fun n => (n / 100)%float) typed.

(** [x !== undefined ? x * 100 : fallback], the [value] of a box. *)
Definition box_value (x : option number) (fallback : number) : number :=
  match x with
  | Some v => (v * 100)%float
  | None => fallback
  end.

Definition risk_box (params : Top10Params) : number :=
  box_value (risk_pct params) 1%float.

Definition stop_box (params : Top10Params) : number :=
  box_value (stop_pct params) 3%float.

Definition cap_box (params : Top10Params) : number :=
  box_value (cap_pct params) 10%float.

End PercentBoxes.

(** ** Sample data for concrete runs *)

Module Samples.
Import JS Api.

Definition samsung : Top10Item :=
  mkTop10Item 1%float "005930" "Samsung Electronics" KOSPI 71000%float
    1.5%float 900000000000%float None None None None.

Definition ecopro (rank : number) : Top10Item :=
  mkTop10Item rank "086520" "Ecopro" KOSDAQ 98000%float
    (-2.25)%float 400000000000%float None None None None.

(** Two answers of the ranking service: all markets, and KOSDAQ only. *)
Definition all_markets : Top10Response :=
  mkTop10Response "2024-01-02T09:00:00" [samsung; ecopro 2%float].

Definition kosdaq_only : Top10Response :=
  mkTop10Response "2024-01-02T09:00:05" [ecopro 1%float].

Definition sym_samsung : Symbol := mkSymbol "005930" "Samsung Electronics" KOSPI.
Definition sym_sk : Symbol := mkSymbol "000660" "SK hynix" KOSPI.

Definition ok {A : Type} (body : A) : FetchResult A := HttpResponse true (Some body).

End Samples.

(** * Properties *)

(** ** Math.round and Math.floor on known inputs *)

Section MathFacts.
Import JS.

(** Ties go up, also below zero; the largest number below one half goes
    to 0; numbers at or above 2^52 are integers already. *)
Example Math_round_samples :
  Math_round 2.5%float = 3%float
  /\ Math_round (-2.5)%float = (-2)%float
  /\ Math_round 0.49999999999999994%float = 0%float
  /\ Math_round (-3.7)%float = (-4)%float
  /\ Math_round 4503599627370497%float = 4503599627370497%float
  /\ Math_round PrimFloat.infinity = PrimFloat.infinity.
Proof. repeat split; vm_compute; reflexivity. Qed.

Example Math_floor_samples :
  Math_floor 2.5%float = 2%float
  /\ Math_floor (-2.5)%float = (-3)%float
  /\ Math_floor 333.33333333333331%float = 333%float
  /\ Math_floor 100%float = 100%float.
Proof. repeat split; vm_compute; reflexivity. Qed.

End MathFacts.

(** ** URLSearchParams *)

Section SearchParamsFacts.
Import JS.

Lemma get_delete_name_other (n k : string) (sp : URLSearchParams) :
  n <> k -> get k (delete_name n sp) = get k sp.
Proof.
  intros Hnk. induction sp as [|[k' v'] rest IH]; simpl; [reflexivity|].
  destruct (String.eqb_spec k' n) as [->|Hn]; simpl.
  - rewrite IH. destruct (String.eqb_spec n k); [contradiction|reflexivity].
  - rewrite IH. reflexivity.
Qed.

Lemma get_set_same (n : string) (v : ParamValue) (sp : URLSearchParams) :
  get n (set n v sp) = Some v.
Proof.
  induction sp as [|[k' v'] rest IH]; simpl.
  - now rewrite String.eqb_refl.
  - destruct (String.eqb_spec k' n) as [->|Hn]; simpl.
    + now rewrite String.eqb_refl.
    + destruct (String.eqb_spec k' n); [contradiction|exact IH].
Qed.

Lemma get_set_other (n k : string) (v : ParamValue) (sp : URLSearchParams) :
  n <> k -> get k (set n v sp) = get k sp.
Proof.
  intros Hnk. induction sp as [|[k' v'] rest IH]; simpl.
  - destruct (String.eqb_spec n k); [contradiction|reflexivity].
  - destruct (String.eqb_spec k' n) as [->|Hn]; simpl.
    + destruct (String.eqb_spec n k); [contradiction|].
      now apply get_delete_name_other.
    + now rewrite IH.
Qed.

End SearchParamsFacts.

(** ** The query builder of getTop10 *)

Section QueryBuilderFacts.
Import JS Api.

Lemma get_set_if_defined_same (n : string) (x : option number)
  (sp : URLSearchParams) :
  get n (set_if_defined n x sp)
  = match x with Some v => Some (NumberText v) | None => get n sp end.
Proof. destruct x; simpl; [apply get_set_same|reflexivity]. Qed.

Lemma get_set_if_defined_other (n k : string) (x : option number)
  (sp : URLSearchParams) :
  n <> k -> get k (set_if_defined n x sp) = get k sp.
Proof. intros H. destruct x; simpl; [now apply get_set_other|reflexivity]. Qed.

Lemma get_set_if_truthy_other (n k : string) (x : option string)
  (sp : URLSearchParams) :
  n <> k -> get k (set_if_truthy n x sp) = get k sp.
Proof.
  intros H. destruct x as [t|]; simpl; [|reflexivity].
  destruct (truthy_string t); [now apply get_set_other|reflexivity].
Qed.

Lemma get_set_if_truthy_same (n : string) (x : option string)
  (sp : URLSearchParams) :
  get n (set_if_truthy n x sp)
  = match x with
    | Some t => if truthy_string t then Some (Text t) else get n sp
    | None => get n sp
    end.
Proof.
  destruct x as [t|]; simpl; [|reflexivity].
  destruct (truthy_string t); [apply get_set_same|reflexivity].
Qed.

(** The three market texts and the two sort keys are non-empty strings, so
    the truthiness tests of getTop10 pass whenever the field is present. *)
Lemma market_filter_text_truthy (m : MarketFilter) :
  truthy_string (market_filter_text m) = true.
Proof. destruct m as [[|]|]; reflexivity. Qed.

Lemma sort_by_text_truthy (s : SortBy) : truthy_string (sort_by_text s) = true.
Proof. destruct s; reflexivity. Qed.

Ltac skip_other_fields :=
  repeat first
    [ rewrite get_set_if_defined_other by discriminate
    | rewrite get_set_if_truthy_other by discriminate ].

Ltac skip_unrelated_fields :=
  repeat first
    [ rewrite get_set_if_defined_other by congruence
    | rewrite get_set_if_truthy_other by congruence ].

(** The market field alone: present in the filter state, present in the
    query. *)
Lemma getTop10_query_fields_market (params : Top10Params) :
  market params <> None ->
  exists v, get "market" (top10_searchParams params) = Some v.
Proof.
  intros H. unfold top10_searchParams.
  skip_other_fields. rewrite get_set_if_truthy_same.
  destruct (market params) as [m|]; [|contradiction]. simpl.
  rewrite market_filter_text_truthy. eauto.
Qed.

(** C7: for every filter state and every field name, the query getTop10
    sends holds the field exactly when the filter state holds it, and with
    the field's own value: a field that is unset is not in the query, and
    no default stands in for it. *)
Theorem getTop10_query_has_exactly_the_present_fields :
  forall (params : Top10Params) (key : string),
    get key (top10_searchParams params) = property params key
    /\ (has key (top10_searchParams params) = true
        <-> property params key <> None).
Proof.
  intros params key.
  assert (Hget : get key (top10_searchParams params) = property params key).
  { unfold top10_searchParams, property.
    destruct (String.eqb_spec key "market") as [->|H1].
    { skip_other_fields. rewrite get_set_if_truthy_same.
      destruct (market params) as [m|]; simpl; [|reflexivity].
      now rewrite market_filter_text_truthy. }
    destruct (String.eqb_spec key "min_value") as [->|H2].
    { skip_other_fields. rewrite get_set_if_defined_same. skip_other_fields.
      destruct (min_value params); reflexivity. }
    destruct (String.eqb_spec key "min_chg_pct") as [->|H3].
    { skip_other_fields. rewrite get_set_if_defined_same. skip_other_fields.
      destruct (min_chg_pct params); reflexivity. }
    destruct (String.eqb_spec key "max_chg_pct") as [->|H4].
    { skip_other_fields. rewrite get_set_if_defined_same. skip_other_fields.
      destruct (max_chg_pct params); reflexivity. }
    destruct (String.eqb_spec key "min_price") as [->|H5].
    { skip_other_fields. rewrite get_set_if_defined_same. skip_other_fields.
      destruct (min_price params); reflexivity. }
    destruct (String.eqb_spec key "max_price") as [->|H6].
    { skip_other_fields. rewrite get_set_if_defined_same. skip_other_fields.
      destruct (max_price params); reflexivity. }
    destruct (String.eqb_spec key "sort_by") as [->|H7].
    { skip_other_fields. rewrite get_set_if_truthy_same. skip_other_fields.
      destruct (sort_by params) as [x|]; simpl; [|reflexivity].
      now rewrite sort_by_text_truthy. }
    destruct (String.eqb_spec key "account_size") as [->|H8].
    { skip_other_fields. rewrite get_set_if_defined_same. skip_other_fields.
      destruct (account_size params); reflexivity. }
    destruct (String.eqb_spec key "risk_pct") as [->|H9].
    { skip_other_fields. rewrite get_set_if_defined_same. skip_other_fields.
      destruct (risk_pct params); reflexivity. }
    destruct (String.eqb_spec key "stop_pct") as [->|H10].
    { skip_other_fields. rewrite get_set_if_defined_same. skip_other_fields.
      destruct (stop_pct params); reflexivity. }
    destruct (String.eqb_spec key "cap_pct") as [->|H11].
    { rewrite get_set_if_defined_same. skip_other_fields.
      destruct (cap_pct params); reflexivity. }
    skip_unrelated_fields. reflexivity. }
  split; [exact Hget|].
  unfold has. rewrite Hget.
  destruct (property params key); split; intros H; congruence.
Qed.

End QueryBuilderFacts.

Section MarketFieldFacts.
Import JS Api.

(** C2: with market set to ALL, as in the filter state the page starts
    with, the query getTop10 sends does contain the market field, with the
    text ALL; getSymbols, next to it, leaves the field out for ALL. *)
Theorem getTop10_sends_market_ALL :
  get "market" (search (getTop10_request Home.initial_filters))
  = Some (Text "ALL")
  /\ (forall params : Top10Params,
        market params = Some ALL ->
        has "market" (search (getTop10_request params)) = true)
  /\ (forall query : option string,
        has "market" (search (getSymbols_request query (Some "ALL"))) = false).
Proof.
  split; [reflexivity|split].
  - intros params H.
    destruct (getTop10_query_fields_market params) as [v Hv]; [now rewrite H|].
    unfold has, getTop10_request; simpl. now rewrite Hv.
  - intros [q|]; unfold getSymbols_request, has; simpl; [|reflexivity].
    destruct (truthy_string q); reflexivity.
Qed.

End MarketFieldFacts.

(** ** Risk sizing *)

Section RiskSizingFacts.
Import JS Api Panels RiskSizingFormula.

(** RiskInputPanel: with an account size and a risk fraction that are both
    truthy, the line shows their product, rounded. *)
Lemma allowed_loss_line_value (params : Top10Params) (a r : number) :
  account_size params = Some a -> risk_pct params = Some r ->
  truthy a = true -> truthy r = true ->
  allowed_loss_line params = Formatted (Math_round (a * r)%float).
Proof.
  intros Ha Hr Ta Tr. unfold allowed_loss_line.
  rewrite Ha, Hr. simpl. now rewrite Ta, Tr.
Qed.

Lemma max_investment_line_value (params : Top10Params) (a c : number) :
  account_size params = Some a -> cap_pct params = Some c ->
  truthy a = true -> truthy c = true ->
  max_investment_line params = Formatted (Math_round (a * c)%float).
Proof.
  intros Ha Hc Ta Tc. unfold max_investment_line.
  rewrite Ha, Hc. simpl. now rewrite Ta, Tc.
Qed.

(** The two panel lines test [account_size] for truthiness only: a
    negative account size still gets a figure. *)
Lemma allowed_loss_line_negative_account :
  allowed_loss_line
    (spread Home.initial_filters (change_account_size (Some (-100)%float)))
  = Formatted (-1)%float.
Proof. vm_compute. reflexivity. Qed.

(** C4: at entry_price 10000, account_size 10000000, risk_fraction 0.01,
    stop_fraction 0.03 and cap_fraction 0.10 the sizing steps give
    allowed_loss 100000, stop_price 9700, risk_per_share 300,
    max_shares_by_risk 333, max_investment_by_cap 1000000,
    max_shares_by_cap 100, max_shares 100 and max_investment 1000000; the
    two lines RiskInputPanel computes itself show 100000 and 1000000 for
    these inputs; allowed_loss is account_size x risk_fraction,
    max_investment_by_cap is account_size x cap_fraction, and max_shares is
    the smaller of the two bounds, floored at 0. *)
Theorem risk_sizing_example :
  let entry_price := 10000%float in
  let account := 10000000%float in
  let risk := 0.01%float in
  let stop := 0.03%float in
  let cap := 0.10%float in
  let params :=
    spread Home.initial_filters (change_account_size (Some account)) in
  allowed_loss account risk = 100000%float
  /\ stop_price entry_price stop = 9700%float
  /\ risk_per_share entry_price stop = 300%float
  /\ max_shares_by_risk (allowed_loss account risk)
       (risk_per_share entry_price stop) = 333%float
  /\ max_investment_by_cap account cap = 1000000%float
  /\ max_shares_by_cap (max_investment_by_cap account cap) entry_price
     = 100%float
  /\ max_shares 333%float 100%float = 100%float
  /\ max_investment 100%float entry_price = 1000000%float
  /\ compute entry_price (Some account) risk stop cap
     = Some (mkSizingPreview 100000%float 9700%float 100%float 1000000%float)
  /\ allowed_loss_line params = Formatted 100000%float
  /\ max_investment_line params = Formatted 1000000%float
  /\ (forall a r : number, allowed_loss a r = (a * r)%float)
  /\ (forall a c : number, max_investment_by_cap a c = (a * c)%float)
  /\ (forall by_risk by_cap : number,
        max_shares by_risk by_cap = Math_max 0%float (Math_min by_risk by_cap)).
Proof.
  cbv zeta.
  repeat match goal with
         | |- _ /\ _ => split
         | |- forall _, _ => intros; reflexivity
         | |- _ = _ => vm_compute; reflexivity
         end.
Qed.

End RiskSizingFacts.

(** ** The risk view flag and the sizing columns *)

Section RiskViewFacts.
Import JS Api Panels Top10Table.

Lemma not_positive_when_le_zero (a : number) :
  PrimFloat.leb a 0%float = true -> PrimFloat.ltb 0%float a = false.
Proof.
  rewrite FloatAxioms.leb_spec, FloatAxioms.ltb_spec.
  replace (Prim2SF 0%float) with (S754_zero false) by reflexivity.
  unfold SFleb, SFltb.
  destruct (Prim2SF a) as [s| s | |s m e]; simpl; try reflexivity;
    destruct s; simpl; congruence.
Qed.

Lemma sizing_header_of_header (showRisk : bool) :
  filter is_sizing (header showRisk)
  = if showRisk then [col_stop_price; col_max_shares; col_max_investment]
    else [].
Proof. destruct showRisk; reflexivity. Qed.

Lemma sizing_cells_of_rows (items : list Top10Item) :
  filter (fun c => is_sizing (fst c)) (List.concat (map (row false) items)) = [].
Proof. induction items as [|i rest IH]; simpl; [reflexivity|exact IH]. Qed.

Lemma sizing_hidden_without_flag (items : list Top10Item) (asof : string)
  (loading : bool) :
  sizing_header (Top10Table items asof false loading) = []
  /\ sizing_cells (Top10Table items asof false loading) = [].
Proof.
  unfold Top10Table. destruct loading; [now split|].
  destruct (List.length items =? 0)%nat; [now split|].
  split; simpl; [reflexivity|apply sizing_cells_of_rows].
Qed.

Lemma sizing_rendered_iff (items : list Top10Item) (asof : string)
  (showRisk loading : bool) :
  sizing_rendered (Top10Table items asof showRisk loading) = true
  <-> showRisk = true /\ loading = false /\ items <> [].
Proof.
  unfold sizing_rendered, Top10Table.
  destruct loading; simpl.
  { split; [discriminate|intros (_ & H & _); discriminate]. }
  destruct items as [|i rest]; simpl.
  { split; [discriminate|intros (_ & _ & H); contradiction]. }
  destruct showRisk; simpl.
  - split; [intros _; repeat split; discriminate|reflexivity].
  - split; [discriminate|intros (H & _); discriminate].
Qed.

(** C5 as the components have it: the flag is true exactly when
    account_size is set and greater than 0; the table shows the sizing
    columns exactly when the flag holds and the table itself is rendered
    (not loading, at least one item); with account_size absent or at most
    0 the flag is false and no sizing column or cell is shown. *)
Theorem risk_view_flag_and_sizing_columns :
  forall s : Home.State,
    (Home.showRisk s = true
     <-> exists a, account_size (Home.contents (Home.filters s)) = Some a
                   /\ PrimFloat.ltb 0%float a = true)
    /\ (sizing_rendered (Home.table s) = true
        <-> Home.showRisk s = true /\ Home.loading s = false
            /\ Home.top10 s <> [])
    /\ (forall a,
          account_size (Home.contents (Home.filters s)) = None
          \/ (account_size (Home.contents (Home.filters s)) = Some a
              /\ PrimFloat.leb a 0%float = true) ->
          Home.showRisk s = false
          /\ sizing_header (Home.table s) = []
          /\ sizing_cells (Home.table s) = []).
Proof.
  intros s. split; [|split].
  - unfold Home.showRisk.
    destruct (account_size (Home.contents (Home.filters s))) as [a|].
    + split; [intros H; now exists a|intros (b & Hb & H); congruence].
    + split; [discriminate|intros (b & Hb & _); discriminate].
  - apply sizing_rendered_iff.
  - intros a H.
    assert (Hflag : Home.showRisk s = false).
    { unfold Home.showRisk. destruct H as [->|[-> Hle]]; [reflexivity|].
      now apply not_positive_when_le_zero. }
    split; [exact Hflag|]. unfold Home.table. rewrite Hflag.
    apply sizing_hidden_without_flag.
Qed.

(** C5, as stated, fails while the list is loading: once an account size
    of 10000000 is entered the flag holds, the fetch it triggers puts the
    table in its loading state, and no sizing column is rendered. *)
Lemma sizing_columns_absent_while_loading :
  let s := Home.run Home.initial
             [Home.Mount;
              Home.Change (change_account_size (Some 10000000%float))] in
  Home.showRisk s = true
  /\ Home.table s = Spinner
  /\ sizing_rendered (Home.table s) = false.
Proof. vm_compute. repeat split. Qed.

End RiskViewFacts.

(** ** The ranked-list coordinator *)

Section HomeFacts.
Import JS Api Panels Effect Home.

(** The two ways [fetchTop10] can resume. Neither throws. *)
Lemma fetchTop10_resume_failure (r : FetchResult Top10Response) (e : Error)
  (s : State) :
  getTop10_settle r = inl e ->
  fetchTop10_resume r s
  = (inr tt,
     setLoading false
       (setTop10 []
          (setError (Some failure_message)
             (console_error "Failed to fetch top 10:" s)))).
Proof.
  intros H. unfold fetchTop10_resume, try_catch_finally, bind, await, update.
  rewrite H. reflexivity.
Qed.

Lemma fetchTop10_resume_success (r : FetchResult Top10Response)
  (response : Top10Response) (s : State) :
  getTop10_settle r = inr response ->
  fetchTop10_resume r s
  = (inr tt,
     setLoading false
       (setAsof (response_asof response) (setTop10 (items response) s))).
Proof.
  intros H. unfold fetchTop10_resume, try_catch_finally, bind, await, update.
  rewrite H. reflexivity.
Qed.

Lemma fetchTop10_resume_fulfils (r : FetchResult Top10Response) (s : State) :
  fst (fetchTop10_resume r s) = inr tt.
Proof.
  destruct (getTop10_settle r) as [e|response] eqn:H.
  - now rewrite (fetchTop10_resume_failure r e s H).
  - now rewrite (fetchTop10_resume_success r response s H).
Qed.

Lemma handleSymbolSelect_resume_fulfils (r : FetchResult Quote) (s : State) :
  fst (handleSymbolSelect_resume r s) = inr tt.
Proof. destruct r as [|[|] [q|]]; reflexivity. Qed.

Lemma step_keeps_fresh (s : State) (e : Event) : fresh s -> fresh (step s e).
Proof.
  unfold fresh. intros H. destruct e; simpl.
  - exact H.
  - unfold handleChange, setFilters; simpl.
    destruct (Nat.eqb_spec (next_oid s) (oid (filters s))); simpl; lia.
  - destruct (loading s); exact H.
  - destruct (interval s); exact H.
  - destruct (is_inflight id await_top10 s); [|exact H].
    unfold detached.
    destruct (getTop10_settle r) as [err|response] eqn:Hr.
    + rewrite (fetchTop10_resume_failure r err _ Hr). exact H.
    + rewrite (fetchTop10_resume_success r response _ Hr). exact H.
  - exact H.
  - destruct (is_inflight id await_quote s); [|exact H].
    destruct r as [|[|] [q|]]; exact H.
  - exact H.
Qed.

Lemma run_keeps_fresh (events : list Event) (s : State) :
  fresh s -> fresh (run s events).
Proof.
  revert s. induction events as [|e rest IH]; intros s H; simpl; [exact H|].
  apply IH. now apply step_keeps_fresh.
Qed.

Lemma initial_fresh : fresh initial.
Proof. unfold fresh; simpl; lia. Qed.

(** What any call of [fetchTop10] does before it awaits. *)
Lemma fetchTop10_call_starts_attempt (closure : FiltersObject) (s : State) :
  let s' := fetchTop10_call closure s in
  loading s' = true
  /\ error s' = None
  /\ network s' = (network s ++ [getTop10_request (contents closure)])%list
  /\ is_inflight (List.length (network s)) await_top10 s' = true.
Proof.
  simpl. repeat split.
  unfold is_inflight, fetchTop10_call; simpl.
  rewrite existsb_app; simpl. rewrite Nat.eqb_refl. simpl.
  apply orb_true_r.
Qed.

(** A change in a panel always reaches [fetchTop10]. *)
Lemma handleChange_fetches (c : FieldChange) (s : State) :
  fresh s ->
  handleChange c s
  = effects
      (with_filters (mkFilters (next_oid s) (spread (contents (filters s)) c))
         (with_next_oid (S (next_oid s)) s)).
Proof.
  unfold fresh, handleChange, setFilters; simpl. intros H.
  destruct (Nat.eqb_spec (next_oid s) (oid (filters s))); [lia|reflexivity].
Qed.

End HomeFacts.

Section FetchFailureFacts.
Import JS Api Panels Effect Home.

Lemma settled_not_inflight (id : nat) (k : Awaiting) (s : State) :
  is_inflight id k (settled id s) = false.
Proof.
  unfold is_inflight, settled; simpl.
  induction (inflight s) as [|[i k'] rest IH]; simpl; [reflexivity|].
  destruct (Nat.eqb_spec i id) as [->|Hne]; simpl; [exact IH|].
  destruct (Nat.eqb_spec i id); [contradiction|]. simpl. exact IH.
Qed.

(** The state a failed fetch leaves behind. *)
Lemma step_fetch_failure (s : State) (id : nat)
  (r : FetchResult Top10Response) (e : Error) :
  is_inflight id await_top10 s = true ->
  getTop10_settle r = inl e ->
  step s (Top10Settles id r)
  = setLoading false
      (setTop10 []
         (setError (Some failure_message)
            (console_error "Failed to fetch top 10:" (settled id s)))).
Proof.
  intros Hin Hr. simpl. rewrite Hin. unfold detached.
  now rewrite (fetchTop10_resume_failure r e _ Hr).
Qed.

Lemma step_fetch_success (s : State) (id : nat)
  (r : FetchResult Top10Response) (response : Top10Response) :
  is_inflight id await_top10 s = true ->
  getTop10_settle r = inr response ->
  step s (Top10Settles id r)
  = setLoading false
      (setAsof (response_asof response)
         (setTop10 (items response) (settled id s))).
Proof.
  intros Hin Hr. simpl. rewrite Hin. unfold detached.
  now rewrite (fetchTop10_resume_success r response _ Hr).
Qed.

(** A rejected fetch, a response whose status is not a success, and a body
    that does not parse all make [getTop10] throw. *)
Lemma getTop10_settle_failures (body : option Top10Response) :
  (exists e, getTop10_settle NetworkFailure = inl e)
  /\ (exists e, getTop10_settle (HttpResponse false body) = inl e)
  /\ (exists e, getTop10_settle (HttpResponse true None) = inl e).
Proof. repeat split; eexists; reflexivity. Qed.

(** [asof] is written by a successful fetch and by nothing else. *)
Lemma asof_written_only_by_success (s : State) (ev : Event) :
  asof (step s ev) = asof s
  \/ exists id r response,
       ev = Top10Settles id r
       /\ getTop10_settle r = inr response
       /\ asof (step s ev) = response_asof response.
Proof.
  destruct ev; simpl.
  - now left.
  - left. unfold handleChange, setFilters; simpl.
    destruct (next_oid s =? oid (filters s))%nat; reflexivity.
  - left. destruct (loading s); reflexivity.
  - left. destruct (interval s); reflexivity.
  - destruct (is_inflight id await_top10 s) eqn:Hin; [|now left].
    unfold detached.
    destruct (getTop10_settle r) as [e|response] eqn:Hr.
    + left. now rewrite (fetchTop10_resume_failure r e _ Hr).
    + right. exists id, r, response.
      rewrite (fetchTop10_resume_success r response _ Hr). now repeat split.
  - now left.
  - left. destruct (is_inflight id await_quote s); [|reflexivity].
    destruct r as [|[|] [q|]]; reflexivity.
  - now left.
Qed.

(** C6: when a fetch of the ranked list fails, the error message is
    recorded, the item list is emptied, loading ends and nothing is left
    unhandled; the failed request is over, and the next trigger (the
    refresh button, or the running 5-minute timer) starts a new attempt:
    loading again, error cleared, one new request in flight. *)
Theorem fetch_failure_is_contained :
  forall (s : State) (id : nat) (r : FetchResult Top10Response) (e : Error),
    is_inflight id await_top10 s = true ->
    getTop10_settle r = inl e ->
    let s' := step s (Top10Settles id r) in
    error s' = Some failure_message
    /\ top10 s' = []
    /\ loading s' = false
    /\ unhandled s' = unhandled s
    /\ is_inflight id await_top10 s' = false
    /\ (let s'' := step s' ClickRefresh in
        loading s'' = true
        /\ error s'' = None
        /\ network s''
           = (network s' ++ [getTop10_request (contents (filters s'))])%list
        /\ is_inflight (List.length (network s')) await_top10 s'' = true)
    /\ (forall closure : FiltersObject,
          interval s = Some closure ->
          let s'' := step s' IntervalTick in
          loading s'' = true
          /\ error s'' = None
          /\ network s''
             = (network s' ++ [getTop10_request (contents closure)])%list
          /\ is_inflight (List.length (network s')) await_top10 s'' = true).
Proof.
  intros s id r e Hin Hr s'. subst s'.
  rewrite (step_fetch_failure s id r e Hin Hr).
  split; [reflexivity|]. split; [reflexivity|]. split; [reflexivity|].
  split; [reflexivity|]. split; [|split].
  - apply (settled_not_inflight id await_top10 s).
  - apply fetchTop10_call_starts_attempt.
  - intros closure Hc.
    match goal with |- context [step ?s1 IntervalTick] => set (after := s1) end.
    replace (step after IntervalTick) with (fetchTop10_call closure after)
      by (subst after; simpl; now rewrite Hc).
    apply (fetchTop10_call_starts_attempt closure after).
Qed.

(** C10: a failed fetch leaves [asof] as it was, and with it the filters
    and the selected quote: of the component's state it writes only the
    items, the error and the loading flag. *)
Theorem fetch_failure_keeps_asof :
  forall (s : State) (id : nat) (r : FetchResult Top10Response) (e : Error),
    is_inflight id await_top10 s = true ->
    getTop10_settle r = inl e ->
    let s' := step s (Top10Settles id r) in
    asof s' = asof s
    /\ filters s' = filters s
    /\ selectedQuote s' = selectedQuote s
    /\ top10 s' = []
    /\ error s' = Some failure_message
    /\ loading s' = false.
Proof.
  intros s id r e Hin Hr s'. subst s'.
  rewrite (step_fetch_failure s id r e Hin Hr). now repeat split.
Qed.

End FetchFailureFacts.

Section FilterChangeFacts.
Import JS Api Panels Effect Home.

Lemma change_sends_one_request (c : FieldChange) (s : State) :
  fresh s ->
  filters (step s (Change c))
  = mkFilters (next_oid s) (spread (contents (filters s)) c)
  /\ network (step s (Change c))
     = (network s
        ++ [getTop10_request (spread (contents (filters s)) c)])%list.
Proof.
  intros H. simpl. rewrite (handleChange_fetches c s H). now split.
Qed.

(** C3 as the page has it: every change of the filter state sends a
    request of its own. After two consecutive changes two requests have
    been sent, one per derived query, whether or not the two queries are
    the same. *)
Theorem every_filter_change_sends_a_request :
  forall (events : list Event) (c1 c2 : FieldChange),
    let s := run initial events in
    let s1 := step s (Change c1) in
    let s2 := step s1 (Change c2) in
    network s2
    = (network s
       ++ [getTop10_request (contents (filters s1));
           getTop10_request (contents (filters s2))])%list.
Proof.
  intros events c1 c2. cbv zeta.
  set (s := run initial events).
  assert (Hs : fresh s) by apply run_keeps_fresh, initial_fresh.
  pose proof (step_keeps_fresh s (Change c1) Hs) as Hs1.
  destruct (change_sends_one_request c1 s Hs) as [Hf1 Hn1].
  destruct (change_sends_one_request c2 _ Hs1) as [Hf2 Hn2].
  rewrite Hn2, Hf2, Hn1, Hf1. simpl. now rewrite <- app_assoc.
Qed.

(** C3, as stated, fails: two edits of the minimum traded value that
    give the same number (100, then 100.0) give the same filter state and
    the same query, and two requests are sent for it, both while the first
    is still loading and after the first has been answered. *)
Lemma identical_changes_send_two_requests :
  let c := Change (change_min_value (Some 100%float)) in
  let s0 := run initial [Mount] in
  let s1 := step s0 c in
  let s2 := step s1 c in
  let answered := step s1 (Top10Settles 1 (Samples.ok Samples.all_markets)) in
  let s3 := step answered c in
  let q := getTop10_request (contents (filters s1)) in
  contents (filters s2) = contents (filters s1)
  /\ network s2 = (network s0 ++ [q; q])%list
  /\ contents (filters s3) = contents (filters s1)
  /\ top10 answered = items Samples.all_markets
  /\ network s3 = (network s0 ++ [q; q])%list.
Proof. vm_compute. repeat split. Qed.

End FilterChangeFacts.

(** ** The search coordinator *)

Section SearchFacts.
Import JS Api Effect SearchBar.

Lemma lookup_resume_success (r : FetchResult (list Symbol))
  (symbols : list Symbol) (s : State) :
  getSymbols_settle r = inr symbols ->
  lookup_resume r s
  = (inr tt,
     setLoading false (setIsOpen true (setResults (firstn 10 symbols) s))).
Proof.
  intros H. unfold lookup_resume, try_catch_finally, bind, await, update.
  rewrite H. reflexivity.
Qed.

Lemma lookup_resume_failure (r : FetchResult (list Symbol)) (e : Error)
  (s : State) :
  getSymbols_settle r = inl e ->
  lookup_resume r s
  = (inr tt, setLoading false (console_error "Search error:" s)).
Proof.
  intros H. unfold lookup_resume, try_catch_finally, bind, await, update.
  rewrite H. reflexivity.
Qed.

Lemma nonempty_length (text : string) :
  text <> "" -> (String.length text <? 1)%nat = false.
Proof. destruct text; [congruence|reflexivity]. Qed.

(** A change to a non-empty text cancels the pending timer and starts a
    new one for the new text; it sends nothing. *)
Lemma input_arms_timer (text : string) (s : State) :
  text <> "" -> text <> query s ->
  let s' := step s (Input text) in
  armed s' /\ query s' = text /\ network s' = network s.
Proof.
  intros Hne Hq. simpl. unfold setQuery, armed.
  destruct (String.eqb_spec text (query s)) as [E|_]; [contradiction|].
  unfold effect; simpl. rewrite (nonempty_length text Hne). now repeat split.
Qed.

(** Less than 300ms later the timer is still pending. *)
Lemma elapse_within_window (gap : nat) (s : State) :
  armed s -> gap < debounce ->
  step s (Elapse gap) = with_now (now s + gap) s.
Proof.
  unfold armed. intros Ha Hg. simpl. unfold elapse; simpl. rewrite Ha.
  destruct (Nat.leb_spec (now s + debounce) (now s + gap)); [lia|reflexivity].
Qed.

(** 300ms or more later the timer has fired and the lookup is sent. *)
Lemma elapse_after_window (dt : nat) (s : State) :
  armed s -> debounce <= dt ->
  let s' := step s (Elapse dt) in
  network s'
  = (network s ++ [getSymbols_request (Some (query s)) None])%list
  /\ timer s' = None
  /\ query s' = query s.
Proof.
  unfold armed. intros Ha Hd. simpl. unfold elapse; simpl. rewrite Ha.
  destruct (Nat.leb_spec (now s + debounce) (now s + dt)); [|lia].
  now repeat split.
Qed.

Lemma last_default_irrelevant {A : Type} (y : A) (l : list A) (d d' : A) :
  last (y :: l) d = last (y :: l) d'.
Proof.
  revert y. induction l as [|z l IH]; intros y; [reflexivity|]. exact (IH z).
Qed.

Lemma last_cons {A : Type} (x : A) (l : list A) (d : A) :
  last (x :: l) d = last l x.
Proof.
  destruct l as [|y l]; [reflexivity|].
  change (last (x :: y :: l) d) with (last (y :: l) d).
  apply last_default_irrelevant.
Qed.

Lemma run_app (s : State) (l1 l2 : list Event) :
  run s (l1 ++ l2) = run (run s l1) l2.
Proof. unfold run. apply fold_left_app. Qed.

Lemma keystrokes_keep_timer_armed (keys : list (nat * string)) (s : State) :
  armed s -> within_window (query s) keys ->
  let s' := run s (keystrokes keys) in
  armed s'
  /\ query s' = last (map snd keys) (query s)
  /\ network s' = network s.
Proof.
  revert s. induction keys as [|[gap text] rest IH]; intros s Ha Hk.
  - simpl. now repeat split.
  - destruct Hk as (Hgap & Hne & Hch & Hrest).
    change (run s (keystrokes ((gap, text) :: rest)))
      with (run (step (step s (Elapse gap)) (Input text)) (keystrokes rest)).
    rewrite (elapse_within_window gap s Ha Hgap).
    destruct (input_arms_timer text (with_now (now s + gap) s) Hne Hch)
      as (Ha' & Hq' & Hn').
    set (s1 := step (with_now (now s + gap) s) (Input text)) in *.
    rewrite <- Hq' in Hrest.
    destruct (IH s1 Ha' Hrest) as (Ha2 & Hq2 & Hn2).
    split; [exact Ha2|]. split.
    + rewrite Hq2, Hq'. simpl map. now rewrite last_cons.
    + rewrite Hn2, Hn'. reflexivity.
Qed.

(** C8: for every burst of changes to non-empty texts, each within 300ms
    of the one before, followed by 300ms or more without input, exactly
    one lookup is sent, and it is the lookup for the last text. *)
Theorem debounce_sends_one_lookup_for_final_text :
  forall (s : State) (first : string) (keys : list (nat * string))
         (settle : nat),
    first <> "" -> first <> query s ->
    within_window first keys ->
    debounce <= settle ->
    let s' := run s (Input first :: keystrokes keys ++ [Elapse settle]) in
    network s'
    = (network s
       ++ [getSymbols_request (Some (last (map snd keys) first)) None])%list
    /\ timer s' = None.
Proof.
  intros s first keys settle Hne Hch Hk Hsettle. cbv zeta.
  replace (run s (Input first :: keystrokes keys ++ [Elapse settle]))
    with (step (run (step s (Input first)) (keystrokes keys)) (Elapse settle))
    by (symmetry; apply (run_app (step s (Input first)))).
  destruct (input_arms_timer first s Hne Hch) as (Ha & Hq & Hn).
  rewrite <- Hq in Hk.
  destruct (keystrokes_keep_timer_armed keys _ Ha Hk) as (Ha' & Hq' & Hn').
  destruct (elapse_after_window settle _ Ha' Hsettle) as (Hn2 & Ht2 & _).
  split; [|exact Ht2].
  rewrite Hn2, Hn', Hn, Hq', Hq. reflexivity.
Qed.

(** C9 as the component has it: when the text becomes empty the result
    list is emptied at once, so it is no longer on screen; the open flag
    keeps its value; the pending timer is cancelled and no request is
    sent, then or when time passes. *)
Theorem empty_query_clears_results :
  forall (s : State),
    query s <> "" ->
    let s' := step s (Input "") in
    results s' = []
    /\ list_shown s' = false
    /\ isOpen s' = isOpen s
    /\ timer s' = None
    /\ network s' = network s
    /\ (forall dt : nat, network (step s' (Elapse dt)) = network s).
Proof.
  intros s Hq. simpl. unfold setQuery.
  destruct (String.eqb_spec "" (query s)) as [E|_]; [congruence|].
  unfold effect, list_shown; simpl.
  repeat split. apply andb_false_r.
Qed.

(** C9, as stated, fails on the open flag: after a lookup has opened the
    list, emptying the text empties the results and leaves the flag set. *)
Lemma empty_query_leaves_open_flag :
  let s := run initial
             [Input "SK"; Elapse 300;
              Settles 0 (Samples.ok [Samples.sym_sk]);
              Input ""] in
  results s = [] /\ isOpen s = true.
Proof. vm_compute. split; reflexivity. Qed.

End SearchFacts.

(** ** Responses that arrive out of order *)

Section ArrivalOrderFacts.
Import JS Api Panels Effect.

Lemma step_lookup_success (s : SearchBar.State) (id : nat)
  (r : FetchResult (list Symbol)) (symbols : list Symbol) :
  SearchBar.is_inflight id s = true ->
  getSymbols_settle r = inr symbols ->
  SearchBar.step s (SearchBar.Settles id r)
  = SearchBar.setLoading false
      (SearchBar.setIsOpen true
         (SearchBar.setResults (firstn 10 symbols) (SearchBar.settled id s))).
Proof.
  intros Hin Hr. simpl. rewrite Hin. unfold SearchBar.detached.
  now rewrite (lookup_resume_success r symbols _ Hr).
Qed.

(** C1 as the two components have it: neither keeps an epoch. A response
    to any request still in flight is applied when it arrives, whatever
    has been requested since: the ranked list shows that response's items
    and timestamp, the search shows that response's first ten symbols and
    opens the list. What is displayed is the response that arrived last. *)
Theorem every_response_is_applied_on_arrival :
  forall (h : Home.State) (id : nat) (response : Top10Response)
         (b : SearchBar.State) (lookup : nat) (symbols : list Symbol),
    Home.is_inflight id Home.await_top10 h = true ->
    SearchBar.is_inflight lookup b = true ->
    (let h' :=
       Home.step h (Home.Top10Settles id (HttpResponse true (Some response))) in
     Home.top10 h' = items response
     /\ Home.asof h' = response_asof response
     /\ Home.loading h' = false
     /\ Home.error h' = Home.error h)
    /\ (let b' :=
          SearchBar.step b
            (SearchBar.Settles lookup (HttpResponse true (Some symbols))) in
        SearchBar.results b' = firstn 10 symbols
        /\ SearchBar.isOpen b' = true
        /\ SearchBar.loading b' = false).
Proof.
  intros h id response b lookup symbols Hh Hb. split.
  - cbv zeta.
    rewrite (step_fetch_success h id (HttpResponse true (Some response))
               response Hh eq_refl).
    now repeat split.
  - cbv zeta.
    rewrite (step_lookup_success b lookup (HttpResponse true (Some symbols))
               symbols Hb eq_refl).
    now repeat split.
Qed.

(** C1, as stated, fails in both coordinators. On the page: the first
    fetch (all markets) is still in flight when the market is changed to
    KOSDAQ; the KOSDAQ answer arrives first and is shown, then the older
    answer arrives and replaces it, although the last request sent is the
    KOSDAQ one. In the search box: the lookup for S is answered after the
    lookup for SK, and its results replace those for SK while the text is
    SK. *)
Lemma stale_response_replaces_latest :
  let issued :=
    Home.run Home.initial
      [Home.Mount; Home.Change (change_market (Only KOSDAQ))] in
  let latest_shown :=
    Home.step issued (Home.Top10Settles 1 (Samples.ok Samples.kosdaq_only)) in
  let h :=
    Home.step latest_shown
      (Home.Top10Settles 0 (Samples.ok Samples.all_markets)) in
  let typed :=
    SearchBar.run SearchBar.initial
      [SearchBar.Input "S"; SearchBar.Elapse 300;
       SearchBar.Input "SK"; SearchBar.Elapse 300] in
  let latest_found :=
    SearchBar.step typed (SearchBar.Settles 1 (Samples.ok [Samples.sym_sk])) in
  let b :=
    SearchBar.step latest_found
      (SearchBar.Settles 0
         (Samples.ok [Samples.sym_samsung; Samples.sym_sk])) in
  (Home.network issued
   = [getTop10_request Home.initial_filters;
      getTop10_request (Home.contents (Home.filters issued))]
   /\ Home.top10 latest_shown = items Samples.kosdaq_only
   /\ Home.top10 h = items Samples.all_markets
   /\ Home.asof h = response_asof Samples.all_markets
   /\ Home.top10 h <> Home.top10 latest_shown)
  /\ (SearchBar.network typed
      = [getSymbols_request (Some "S") None;
         getSymbols_request (Some "SK") None]
      /\ SearchBar.query b = "SK"
      /\ SearchBar.results latest_found = [Samples.sym_sk]
      /\ SearchBar.results b = [Samples.sym_samsung; Samples.sym_sk]
      /\ SearchBar.results b <> SearchBar.results latest_found).
Proof.
  cbv zeta. split.
  - repeat split; try (vm_compute; reflexivity).
    vm_compute. discriminate.
  - repeat split; try (vm_compute; reflexivity).
    vm_compute. discriminate.
Qed.

End ArrivalOrderFacts.

(** ** Concrete instances *)

Section Instances.
Import JS Api Panels Effect.

(** An answer to the first fetch, arriving after the market was changed,
    and an answer to the first lookup, arriving after the text changed. *)
Lemma every_response_is_applied_on_arrival_instance :
  let h :=
    Home.run Home.initial
      [Home.Mount; Home.Change (change_market (Only KOSDAQ))] in
  let b :=
    SearchBar.run SearchBar.initial
      [SearchBar.Input "S"; SearchBar.Elapse 300;
       SearchBar.Input "SK"; SearchBar.Elapse 300] in
  (let h' := Home.step h (Home.Top10Settles 0 (Samples.ok Samples.all_markets)) in
   Home.top10 h' = items Samples.all_markets
   /\ Home.asof h' = response_asof Samples.all_markets
   /\ Home.loading h' = false
   /\ Home.error h' = Home.error h)
  /\ (let b' :=
        SearchBar.step b (SearchBar.Settles 0 (Samples.ok [Samples.sym_samsung])) in
      SearchBar.results b' = firstn 10 [Samples.sym_samsung]
      /\ SearchBar.isOpen b' = true
      /\ SearchBar.loading b' = false).
Proof.
  exact (every_response_is_applied_on_arrival
           (Home.run Home.initial
              [Home.Mount; Home.Change (change_market (Only KOSDAQ))])
           0 Samples.all_markets
           (SearchBar.run SearchBar.initial
              [SearchBar.Input "S"; SearchBar.Elapse 300;
               SearchBar.Input "SK"; SearchBar.Elapse 300])
           0 [Samples.sym_samsung] eq_refl eq_refl).
Defined.

(** The first fetch after mounting is answered with a status that is not
    a success. *)
Lemma fetch_failure_is_contained_instance :
  let s := Home.run Home.initial [Home.Mount] in
  let s' := Home.step s (Home.Top10Settles 0 (HttpResponse false None)) in
  Home.error s' = Some Home.failure_message
  /\ Home.top10 s' = []
  /\ Home.loading s' = false
  /\ Home.unhandled s' = Home.unhandled s
  /\ Home.is_inflight 0 Home.await_top10 s' = false
  /\ (let s'' := Home.step s' Home.ClickRefresh in
      Home.loading s'' = true
      /\ Home.error s'' = None
      /\ Home.network s''
         = (Home.network s'
            ++ [getTop10_request (Home.contents (Home.filters s'))])%list
      /\ Home.is_inflight (List.length (Home.network s')) Home.await_top10 s''
         = true)
  /\ (forall closure : Home.FiltersObject,
        Home.interval s = Some closure ->
        let s'' := Home.step s' Home.IntervalTick in
        Home.loading s'' = true
        /\ Home.error s'' = None
        /\ Home.network s''
           = (Home.network s' ++ [getTop10_request (Home.contents closure)])%list
        /\ Home.is_inflight (List.length (Home.network s')) Home.await_top10 s''
           = true).
Proof.
  exact (fetch_failure_is_contained (Home.run Home.initial [Home.Mount]) 0
           (HttpResponse false None) (Error_message "Failed to fetch top 10")
           eq_refl eq_refl).
Defined.

(** A successful fetch, then a refresh whose fetch is rejected: the
    timestamp of the successful one stays. *)
Lemma fetch_failure_keeps_asof_instance :
  let s :=
    Home.run Home.initial
      [Home.Mount; Home.Top10Settles 0 (Samples.ok Samples.all_markets);
       Home.ClickRefresh] in
  let s' := Home.step s (Home.Top10Settles 1 NetworkFailure) in
  Home.asof s = response_asof Samples.all_markets
  /\ Home.asof s' = Home.asof s
  /\ Home.filters s' = Home.filters s
  /\ Home.selectedQuote s' = Home.selectedQuote s
  /\ Home.top10 s' = []
  /\ Home.error s' = Some Home.failure_message
  /\ Home.loading s' = false.
Proof.
  split; [reflexivity|].
  exact (fetch_failure_keeps_asof
           (Home.run Home.initial
              [Home.Mount; Home.Top10Settles 0 (Samples.ok Samples.all_markets);
               Home.ClickRefresh])
           1 NetworkFailure TypeError_fetch eq_refl eq_refl).
Defined.

(** Typing A, B and C, 100ms and 120ms apart, then waiting 300ms: one
    lookup, for ABC. *)
Lemma debounce_sends_one_lookup_instance :
  let s :=
    SearchBar.run SearchBar.initial
      [SearchBar.Input "A"; SearchBar.Elapse 100;
       SearchBar.Input "AB"; SearchBar.Elapse 120;
       SearchBar.Input "ABC"; SearchBar.Elapse 300] in
  SearchBar.network s = [getSymbols_request (Some "ABC") None]
  /\ SearchBar.timer s = None.
Proof.
  apply (debounce_sends_one_lookup_for_final_text SearchBar.initial "A"
           [(100, "AB"); (120, "ABC")] 300).
  - discriminate.
  - discriminate.
  - simpl. unfold SearchBar.debounce.
    repeat split; try lia; discriminate.
  - unfold SearchBar.debounce. lia.
Defined.

(** Emptying the text after a lookup for SK has been answered. *)
Lemma empty_query_clears_results_instance :
  let s :=
    SearchBar.run SearchBar.initial
      [SearchBar.Input "SK"; SearchBar.Elapse 300;
       SearchBar.Settles 0 (Samples.ok [Samples.sym_sk])] in
  let s' := SearchBar.step s (SearchBar.Input "") in
  SearchBar.results s = [Samples.sym_sk]
  /\ SearchBar.results s' = []
  /\ SearchBar.list_shown s' = false
  /\ SearchBar.isOpen s' = SearchBar.isOpen s
  /\ SearchBar.timer s' = None
  /\ SearchBar.network s' = SearchBar.network s
  /\ (forall dt : nat,
        SearchBar.network (SearchBar.step s' (SearchBar.Elapse dt))
        = SearchBar.network s).
Proof.
  split; [reflexivity|].
  apply (empty_query_clears_results
           (SearchBar.run SearchBar.initial
              [SearchBar.Input "SK"; SearchBar.Elapse 300;
               SearchBar.Settles 0 (Samples.ok [Samples.sym_sk])])).
  discriminate.
Defined.

End Instances.

(** ** The theme switcher *)

Section ThemeFacts.
Import JS ThemeSwitcher.

Lemma getItem_setItem_same (key value : string) (st : Storage) :
  getItem key (setItem key value st) = Some value.
Proof.
  induction st as [|[k v] rest IH]; simpl.
  - now rewrite String.eqb_refl.
  - destruct (String.eqb_spec k key) as [->|Hne]; simpl.
    + now rewrite String.eqb_refl.
    + destruct (String.eqb_spec k key); [contradiction|exact IH].
Qed.

Lemma getItem_setItem_other (key other value : string) (st : Storage) :
  other <> key -> getItem other (setItem key value st) = getItem other st.
Proof.
  intros Hne. induction st as [|[k v] rest IH]; simpl.
  - destruct (String.eqb_spec key other); [congruence|reflexivity].
  - destruct (String.eqb_spec k key) as [->|Hk]; simpl.
    + destruct (String.eqb_spec key other); [congruence|reflexivity].
    + now rewrite IH.
Qed.

(** The theme an event leaves: never the empty string. *)
Lemma step_sets_a_theme (p : Page) (e : Event) :
  exists theme,
    theme <> "" /\ step p e = setTheme theme
                               (match e with
                                | PageLoad markup => mkPage markup (localStorage p)
                                | Click => p
                                end).
Proof.
  destruct e as [markup|]; simpl.
  - unfold onDOMContentLoaded; simpl.
    destruct (getItem "theme" (localStorage p)) as [t|].
    + destruct t as [|c t']; simpl.
      * exists "light". split; [discriminate|reflexivity].
      * exists (String c t'). split; [discriminate|reflexivity].
    + exists "light". split; [discriminate|reflexivity].
  - unfold onClick. destruct (data_theme p) as [t|].
    + destruct (String.eqb t "dark").
      * exists "light". split; [discriminate|reflexivity].
      * exists "dark". split; [discriminate|reflexivity].
    + exists "dark". split; [discriminate|reflexivity].
Qed.

(** X1: after a page load or a click the root element's data-theme and
    the stored theme are the same non-empty string, and every other entry
    of the storage is as it was. *)
Theorem theme_attribute_and_storage_agree :
  forall (p : Page) (e : Event),
    let p' := step p e in
    (exists theme,
       theme <> ""
       /\ data_theme p' = Some theme
       /\ getItem "theme" (localStorage p') = Some theme)
    /\ (forall key, key <> "theme" ->
          getItem key (localStorage p') = getItem key (localStorage p)).
Proof.
  intros p e. cbv zeta.
  destruct (step_sets_a_theme p e) as (theme & Hne & ->).
  split.
  - exists theme. split; [exact Hne|]. split; [reflexivity|].
    apply getItem_setItem_same.
  - intros key Hkey. simpl.
    rewrite getItem_setItem_other by exact Hkey. now destruct e.
Qed.

(** X2: a click sets light when the attribute is exactly dark and dark in
    every other case (light, no attribute, any other text); from the first
    click on, two clicks bring the theme back. *)
Theorem theme_click_toggles :
  forall (p : Page),
    (data_theme p = Some "dark" -> data_theme (step p Click) = Some "light")
    /\ (data_theme p <> Some "dark" -> data_theme (step p Click) = Some "dark")
    /\ data_theme (step (step (step p Click) Click) Click)
       = data_theme (step p Click).
Proof.
  intros p. simpl. unfold onClick. repeat split.
  - intros ->. reflexivity.
  - intros H. destruct (data_theme p) as [t|]; [|reflexivity].
    destruct (String.eqb_spec t "dark") as [->|_]; [congruence|reflexivity].
  - destruct (data_theme p) as [t|]; [|reflexivity].
    destruct (String.eqb t "dark"); reflexivity.
Qed.

(** X3: the theme survives a reload: whatever the markup says, a page
    load that follows a load or a click sets the theme that was in force;
    a load that finds no stored theme, or an empty one, sets light. *)
Theorem theme_survives_reload :
  forall (p : Page) (e : Event) (markup : option string),
    data_theme (step (step p e) (PageLoad markup)) = data_theme (step p e)
    /\ (getItem "theme" (localStorage p) = None
        \/ getItem "theme" (localStorage p) = Some "" ->
        data_theme (step p (PageLoad markup)) = Some "light").
Proof.
  intros p e markup. split.
  - destruct (step_sets_a_theme p e) as (theme & Hne & ->).
    simpl. unfold onDOMContentLoaded; simpl.
    rewrite getItem_setItem_same.
    destruct theme; [congruence|reflexivity].
  - intros [H|H]; simpl; unfold onDOMContentLoaded; simpl; now rewrite H.
Qed.

End ThemeFacts.

(** ** More on the queries of api.ts *)

Section QueryFacts.
Import JS Api Panels PanelKeys.

Ltac other_fields :=
  repeat first
    [ rewrite get_set_if_defined_other by discriminate
    | rewrite get_set_if_truthy_other by discriminate ].

Ltac number_field :=
  other_fields; rewrite get_set_if_defined_same; other_fields;
  match goal with
  | |- context [match ?x with Some _ => _ | None => _ end] =>
      destruct x; reflexivity
  end.

(** The value the query of getTop10 holds under a name. *)
Lemma top10_query_lookup (params : Top10Params) (key : string) :
  get key (top10_searchParams params) = property params key.
Proof.
  unfold top10_searchParams, property.
  destruct (String.eqb_spec key "market") as [->|H1].
  { other_fields. rewrite get_set_if_truthy_same.
    destruct (market params) as [m|]; simpl; [|reflexivity].
    now rewrite market_filter_text_truthy. }
  destruct (String.eqb_spec key "min_value") as [->|H2]; [number_field|].
  destruct (String.eqb_spec key "min_chg_pct") as [->|H3]; [number_field|].
  destruct (String.eqb_spec key "max_chg_pct") as [->|H4]; [number_field|].
  destruct (String.eqb_spec key "min_price") as [->|H5]; [number_field|].
  destruct (String.eqb_spec key "max_price") as [->|H6]; [number_field|].
  destruct (String.eqb_spec key "sort_by") as [->|H7].
  { other_fields. rewrite get_set_if_truthy_same. other_fields.
    destruct (sort_by params) as [x|]; simpl; [|reflexivity].
    now rewrite sort_by_text_truthy. }
  destruct (String.eqb_spec key "account_size") as [->|H8]; [number_field|].
  destruct (String.eqb_spec key "risk_pct") as [->|H9]; [number_field|].
  destruct (String.eqb_spec key "stop_pct") as [->|H10]; [number_field|].
  destruct (String.eqb_spec key "cap_pct") as [->|H11]; [number_field|].
  repeat first
    [ rewrite get_set_if_defined_other by congruence
    | rewrite get_set_if_truthy_other by congruence ].
  reflexivity.
Qed.

Lemma truthy_string_iff' (s : string) (b : bool) :
  truthy_string s = b <-> (if b then s <> "" else s = "").
Proof.
  destruct s, b; simpl; split; intros H;
    first [reflexivity | discriminate | now elim H].
Qed.

(** X4: the query getTop10 sends lists the fields that are present in the
    fixed order market, min_value, min_chg_pct, max_chg_pct, min_price,
    max_price, sort_by, account_size, risk_pct, stop_pct, cap_pct, each
    once and with its own value: the same filter contents always give the
    same query text. *)
Theorem getTop10_query_in_fixed_order :
  forall params : Top10Params,
    top10_searchParams params
    = flat_map
        (fun key =>
           match property params key with
           | Some v => [(key, v)]
           | None => []
           end)
        top10_keys.
Proof.
  intros [m v1 v2 v3 v4 v5 s v6 v7 v8 v9].
  destruct m as [[[|]|]|], s as [[|]|],
    v1, v2, v3, v4, v5, v6, v7, v8, v9; reflexivity.
Qed.

(** X5: the query getSymbols sends holds the search text under query
    exactly when the text is given and not empty, the market under market
    exactly when it is given, not empty and not ALL, and nothing else. *)
Theorem getSymbols_query_fields :
  forall (query market : option string),
    let sp := search (getSymbols_request query market) in
    (forall v, get "query" sp = Some v
               <-> exists q, query = Some q /\ q <> "" /\ v = Text q)
    /\ (forall v, get "market" sp = Some v
                  <-> exists m, market = Some m /\ m <> "" /\ m <> "ALL"
                                /\ v = Text m)
    /\ (forall key, key <> "query" -> key <> "market" -> get key sp = None).
Proof.
  intros query market. cbv zeta. unfold getSymbols_request; simpl search.
  assert (Hm : forall sp0 key,
             get key
               match market with
               | Some m =>
                   if truthy_string m && negb (String.eqb m "ALL")
                   then set "market" (Text m) sp0 else sp0
               | None => sp0
               end
             = if String.eqb "market" key
               then match market with
                    | Some m =>
                        if truthy_string m && negb (String.eqb m "ALL")
                        then Some (Text m) else get key sp0
                    | None => get key sp0
                    end
               else get key sp0).
  { intros sp0 key. destruct (String.eqb_spec "market" key) as [<-|Hne].
    - destruct market as [m|]; [|reflexivity].
      destruct (truthy_string m && negb (String.eqb m "ALL"));
        [apply get_set_same|reflexivity].
    - destruct market as [m|]; [|reflexivity].
      destruct (truthy_string m && negb (String.eqb m "ALL"));
        [now apply get_set_other|reflexivity]. }
  split; [|split].
  - intros v. rewrite Hm.
    replace (String.eqb "market" "query") with false by reflexivity.
    rewrite get_set_if_truthy_same. cbn [get].
    destruct query as [q|].
    + destruct (truthy_string q) eqn:Hq; rewrite truthy_string_iff' in Hq.
      * split.
        -- intros E. exists q. repeat split; congruence.
        -- intros (q' & E & _ & ->). congruence.
      * split; [discriminate|intros (q' & E & Hq' & _); congruence].
    + split; [discriminate|intros (q & E & _); discriminate].
  - intros v. rewrite Hm. rewrite String.eqb_refl.
    rewrite get_set_if_truthy_other by discriminate. cbn [get].
    destruct market as [m|].
    + destruct (truthy_string m) eqn:Ht; rewrite truthy_string_iff' in Ht;
        destruct (String.eqb_spec m "ALL") as [E|Hne]; cbn [andb negb].
      * split; [discriminate|intros (m' & E' & _ & Hall & _); congruence].
      * split.
        -- intros E. exists m. repeat split; congruence.
        -- intros (m' & E & _ & _ & ->). congruence.
      * split; [discriminate|intros (m' & E' & Hm' & _); congruence].
      * split; [discriminate|intros (m' & E' & Hm' & _); congruence].
    + split; [discriminate|intros (m & E & _); discriminate].
  - intros key Hq Hk. rewrite Hm.
    destruct (String.eqb_spec "market" key); [congruence|].
    rewrite get_set_if_truthy_other by congruence. reflexivity.
Qed.

Lemma property_after_spread (p : Top10Params) (c : FieldChange) (key : string) :
  property (spread p c) key
  = if String.eqb key (change_key c) then change_value c else property p key.
Proof.
  unfold property.
  destruct c; simpl;
    repeat match goal with
           | |- context [String.eqb key ?k] =>
               destruct (String.eqb_spec key k) as [->|?]; simpl
           end;
    try reflexivity; congruence.
Qed.

(** X6: an edit in a panel changes one parameter of the next query and
    no other: under the edited key the query holds the new value, or
    nothing when the box was emptied; under every other name it holds what
    it held before. *)
Theorem edit_changes_one_query_parameter :
  forall (p : Top10Params) (c : FieldChange) (key : string),
    get key (top10_searchParams (spread p c))
    = if String.eqb key (change_key c) then change_value c
      else get key (top10_searchParams p).
Proof.
  intros p c key. rewrite !top10_query_lookup. apply property_after_spread.
Qed.

End QueryFacts.

(** ** More on the page *)

Section PageFacts.
Import JS Api Panels Effect Home Invariants.

Lemma step_keeps_page_sound (s : State) (e : Event) :
  page_sound s -> page_sound (step s e).
Proof.
  intros [Hf Hi]. split; [now apply step_keeps_fresh|].
  destruct e; simpl.
  - now right.
  - rewrite (handleChange_fetches c s Hf). now right.
  - destruct (loading s); exact Hi.
  - destruct Hi as [E|E]; rewrite E; simpl; [left|right]; exact E.
  - destruct (is_inflight id await_top10 s); [|exact Hi].
    unfold detached.
    destruct (getTop10_settle r) as [err|response] eqn:Hr.
    + rewrite (fetchTop10_resume_failure r err _ Hr). exact Hi.
    + rewrite (fetchTop10_resume_success r response _ Hr). exact Hi.
  - exact Hi.
  - destruct (is_inflight id await_quote s); [|exact Hi].
    destruct r as [|[|] [q|]]; exact Hi.
  - exact Hi.
Qed.

Lemma run_keeps_page_sound (events : list Event) (s : State) :
  page_sound s -> page_sound (run s events).
Proof.
  revert s. induction events as [|e rest IH]; intros s H; simpl; [exact H|].
  apply IH. now apply step_keeps_page_sound.
Qed.

Lemma initial_page_sound : page_sound initial.
Proof. split; [apply initial_fresh|now left]. Qed.

(** X7: whatever has happened on the page, an event sends at most one
    request, and a request for the ranked list is always built from the
    filters in force once the event is handled: the 5-minute timer and
    the refresh button never send an outdated query. Responses and
    closing the card send nothing: there is no automatic retry. *)
Theorem page_requests_use_current_filters :
  forall (events : list Event) (e : Event),
    let s := run initial events in
    let s' := step s e in
    match e with
    | Top10Settles _ _ | QuoteSettles _ _ | CloseCard =>
        network s' = network s
    | SelectSymbol symbol =>
        network s' = (network s ++ [getQuote_request (symbol_code symbol)])%list
    | Mount | Change _ | ClickRefresh | IntervalTick =>
        network s' = network s
        \/ network s'
           = (network s ++ [getTop10_request (contents (filters s'))])%list
    end.
Proof.
  intros events e. cbv zeta.
  destruct (run_keeps_page_sound events initial initial_page_sound) as [Hf Hi].
  set (s := run initial events) in *.
  destruct e; simpl.
  - now right.
  - right. rewrite (handleChange_fetches c s Hf). reflexivity.
  - destruct (loading s); [now left|now right].
  - destruct Hi as [Hi|Hi]; rewrite Hi; [now left|now right].
  - destruct (is_inflight id await_top10 s); [|reflexivity].
    unfold detached.
    destruct (getTop10_settle r) as [err|response] eqn:Hr.
    + now rewrite (fetchTop10_resume_failure r err _ Hr).
    + now rewrite (fetchTop10_resume_success r response _ Hr).
  - reflexivity.
  - destruct (is_inflight id await_quote s); [|reflexivity].
    destruct r as [|[|] [q|]]; reflexivity.
  - reflexivity.
Qed.

Lemma page_step_keeps_unhandled (s : State) (e : Event) :
  unhandled (step s e) = unhandled s.
Proof.
  destruct e; simpl; try reflexivity.
  - unfold handleChange, setFilters; simpl.
    destruct (next_oid s =? oid (filters s))%nat; reflexivity.
  - destruct (loading s); reflexivity.
  - destruct (interval s); reflexivity.
  - destruct (is_inflight id await_top10 s); [|reflexivity].
    unfold detached.
    destruct (getTop10_settle r) as [err|response] eqn:Hr.
    + now rewrite (fetchTop10_resume_failure r err _ Hr).
    + now rewrite (fetchTop10_resume_success r response _ Hr).
  - destruct (is_inflight id await_quote s); [|reflexivity].
    destruct r as [|[|] [q|]]; reflexivity.
Qed.

Lemma search_step_keeps_unhandled (s : SearchBar.State) (e : SearchBar.Event) :
  SearchBar.unhandled (SearchBar.step s e) = SearchBar.unhandled s.
Proof.
  destruct e; simpl.
  - unfold SearchBar.setQuery.
    destruct (String.eqb text (SearchBar.query s)); [reflexivity|].
    unfold SearchBar.effect; simpl.
    destruct (String.length text <? 1)%nat; reflexivity.
  - unfold SearchBar.elapse; simpl.
    destruct (SearchBar.timer s) as [[due closure]|]; [|reflexivity].
    destruct (due <=? SearchBar.now s + dt)%nat; reflexivity.
  - destruct (SearchBar.is_inflight id s); [|reflexivity].
    unfold SearchBar.detached.
    destruct (getSymbols_settle r) as [err|symbols] eqn:Hr.
    + now rewrite (lookup_resume_failure r err _ Hr).
    + now rewrite (lookup_resume_success r symbols _ Hr).
  - unfold SearchBar.handleSelect.
    destruct (negb _); [|reflexivity].
    unfold SearchBar.effect; simpl.
    destruct (String.length _ <? 1)%nat; reflexivity.
  - destruct (0 <? List.length (SearchBar.results s))%nat; reflexivity.
Qed.

(** X8: no sequence of events, on the page or in the search box, leaves a
    rejected promise unhandled: every failure of a request for the ranked
    list, a quote or a symbol lookup is caught by the handler that
    started it. *)
Theorem no_rejection_is_left_unhandled :
  forall (page_events : list Event) (search_events : list SearchBar.Event),
    unhandled (run initial page_events) = []
    /\ SearchBar.unhandled (SearchBar.run SearchBar.initial search_events) = [].
Proof.
  intros page_events search_events. split.
  - change [] with (unhandled initial). generalize initial.
    induction page_events as [|e rest IH]; intros s; simpl; [reflexivity|].
    rewrite IH. apply page_step_keeps_unhandled.
  - change [] with (SearchBar.unhandled SearchBar.initial).
    generalize SearchBar.initial.
    induction search_events as [|e rest IH]; intros s; simpl; [reflexivity|].
    rewrite IH. apply search_step_keeps_unhandled.
Qed.

(** X9: fetching a quote never disturbs the ranked list: when the quote
    request settles, items, timestamp, loading flag, error and filters are
    as they were and nothing is sent; a quote that arrives becomes the
    selected one, a failure leaves the selection alone and writes one line
    to the console. *)
Theorem quote_lookup_leaves_ranked_list_alone :
  forall (s : State) (id : nat) (r : FetchResult Quote),
    is_inflight id await_quote s = true ->
    let s' := step s (QuoteSettles id r) in
    top10 s' = top10 s /\ asof s' = asof s /\ loading s' = loading s
    /\ error s' = error s /\ filters s' = filters s
    /\ network s' = network s
    /\ match getQuote_settle r with
       | inr quote =>
           selectedQuote s' = Some quote /\ console s' = console s
       | inl _ =>
           selectedQuote s' = selectedQuote s
           /\ console s' = (console s ++ ["Failed to fetch quote:"])%list
       end.
Proof.
  intros s id r Hin. simpl. rewrite Hin.
  destruct r as [|[|] [q|]]; simpl; now repeat split.
Qed.

Lemma settled_keeps_others (id other : nat) (k : Awaiting) (s : State) :
  other <> id -> is_inflight other k (settled id s) = is_inflight other k s.
Proof.
  intros Hne. unfold is_inflight, settled; simpl.
  induction (inflight s) as [|[i k'] rest IH]; simpl; [reflexivity|].
  destruct (Nat.eqb_spec i id) as [->|Hi]; simpl.
  - destruct (Nat.eqb_spec id other); [congruence|]. simpl. exact IH.
  - now rewrite IH.
Qed.

(** X10: the loading flag belongs to no request in particular: when one
    of two fetches in flight settles, with a success or a failure, loading
    ends although the other is still in flight, so the table leaves its
    loading state and the refresh button sends again. *)
Theorem loading_ends_with_the_first_answer :
  forall (s : State) (id other : nat) (r : FetchResult Top10Response),
    other <> id ->
    is_inflight id await_top10 s = true ->
    is_inflight other await_top10 s = true ->
    let s' := step s (Top10Settles id r) in
    loading s' = false
    /\ is_inflight other await_top10 s' = true
    /\ network (step s' ClickRefresh)
       = (network s ++ [getTop10_request (contents (filters s))])%list.
Proof.
  intros s id other r Hne Hin Hother. cbv zeta.
  destruct (getTop10_settle r) as [err|response] eqn:Hr.
  - rewrite (step_fetch_failure s id r err Hin Hr).
    split; [reflexivity|]. split; [|reflexivity].
    rewrite <- Hother. apply (settled_keeps_others id other await_top10 s Hne).
  - rewrite (step_fetch_success s id r response Hin Hr).
    split; [reflexivity|]. split; [|reflexivity].
    rewrite <- Hother. apply (settled_keeps_others id other await_top10 s Hne).
Qed.

End PageFacts.

(** ** More on the table *)

Section TableFacts.
Import JS Api Top10Table.

(** X11: the three faces of Top10Table. It shows the spinner exactly
    while loading and the empty message exactly for an empty list that is
    not loading; otherwise it shows one row per item, in order, each row's
    cells lined up with the header's columns, five of them or eight with
    the risk view, and the timestamp unless it is the empty string. *)
Theorem table_rows_follow_header :
  forall (items : list Top10Item) (asof : string) (showRisk loading : bool),
    match Top10Table items asof showRisk loading with
    | Spinner => loading = true
    | EmptyMessage => loading = false /\ items = []
    | Table shown hdr rows =>
        loading = false
        /\ items <> []
        /\ List.length hdr = (if showRisk then 8 else 5)
        /\ map (map fst) rows = map (fun _ => hdr) items
        /\ map (fun r => nth_error r 1) rows
           = map (fun i =>
                    Some (col_name, cell_name (name i) (code i) (item_market i)))
               items
        /\ (shown = None <-> asof = "")
    end.
Proof.
  intros items asof showRisk loading. unfold Top10Table.
  destruct loading; [reflexivity|].
  destruct items as [|i rest]; [now split|].
  cbn [List.length Nat.eqb].
  split; [reflexivity|]. split; [discriminate|].
  split; [destruct showRisk; reflexivity|].
  split; [|split].
  - rewrite map_map. apply map_ext. intros item. destruct showRisk; reflexivity.
  - rewrite map_map. apply map_ext. intros item. reflexivity.
  - destruct asof; simpl; split; congruence.
Qed.

End TableFacts.

(** ** More on the search box *)

Section SearchBoxFacts.
Import JS Api Effect SearchBar Invariants.

Lemma append_nonempty (a b : string) : b <> "" -> (a ++ b)%string <> "".
Proof. destruct a; simpl; [auto|discriminate]. Qed.

Lemma display_text_nonempty (symbol : Symbol) : display_text symbol <> "".
Proof.
  unfold display_text. apply append_nonempty. discriminate.
Qed.

Lemma length_zero_empty (text : string) :
  (String.length text <? 1)%nat = true -> text = "".
Proof. destruct text; [reflexivity|discriminate]. Qed.

Lemma effect_keeps_search_sound (s : State) :
  List.length (results s) <= 10 -> search_sound (effect s).
Proof.
  intros Hr. unfold effect, search_sound; simpl.
  destruct (String.length (query s) <? 1)%nat eqn:Hlen; simpl.
  - split; [discriminate|lia].
  - split; [|exact Hr].
    intros due closure E. injection E as _ <-. split; [reflexivity|].
    intros E. rewrite E in Hlen. discriminate.
Qed.

Lemma step_keeps_search_sound (s : State) (e : Event) :
  search_sound s -> search_sound (step s e).
Proof.
  intros [Ht Hr]. destruct e; simpl.
  - unfold setQuery. destruct (String.eqb text (query s)); [now split|].
    now apply effect_keeps_search_sound.
  - unfold elapse; simpl.
    destruct (timer s) as [[due closure]|] eqn:E; [|split; [|exact Hr]].
    + destruct (due <=? now s + dt)%nat; simpl.
      * split; [discriminate|exact Hr].
      * split; [|exact Hr]. simpl. rewrite E. exact Ht.
    + simpl. rewrite E. discriminate.
  - destruct (is_inflight id s); [|now split].
    unfold detached.
    destruct (getSymbols_settle r) as [err|symbols] eqn:Hs.
    + rewrite (lookup_resume_failure r err _ Hs). now split.
    + rewrite (lookup_resume_success r symbols _ Hs). split; [exact Ht|].
      change (List.length (firstn 10 symbols) <= 10). apply firstn_le_length.
  - unfold handleSelect. fold (display_text symbol).
    destruct (String.eqb_spec (display_text symbol) (query s)) as [E|Hne];
      simpl.
    + split; [|exact Hr]. simpl. intros due closure Hd.
      destruct (Ht due closure Hd) as [-> Hq]. now split.
    + now apply effect_keeps_search_sound.
  - destruct (0 <? List.length (results s))%nat; now split.
Qed.

Lemma run_keeps_search_sound (events : list Event) (s : State) :
  search_sound s -> search_sound (run s events).
Proof.
  revert s. induction events as [|e rest IH]; intros s H; simpl; [exact H|].
  apply IH. now apply step_keeps_search_sound.
Qed.

Lemma initial_search_sound : search_sound initial.
Proof. split; simpl; [discriminate|lia]. Qed.

(** X12: whatever has been typed, selected or answered, the search box
    holds at most ten results. *)
Theorem results_never_exceed_ten :
  forall events : list Event,
    List.length (results (run initial events)) <= 10.
Proof.
  intros events.
  apply (run_keeps_search_sound events initial initial_search_sound).
Qed.

(** X13: the search box sends a request only when its timer fires, and
    then one lookup for the text in the box at that moment, which is not
    empty, with no market; typing, selecting, focusing and answers send
    nothing. *)
Theorem lookups_are_for_the_text_in_the_box :
  forall (events : list Event) (e : Event),
    let s := run initial events in
    let s' := step s e in
    match e with
    | Elapse _ =>
        network s' = network s
        \/ (query s <> ""
            /\ network s'
               = (network s ++ [getSymbols_request (Some (query s)) None])%list)
    | _ => network s' = network s
    end.
Proof.
  intros events e. cbv zeta.
  destruct (run_keeps_search_sound events initial initial_search_sound)
    as [Ht _].
  set (s := run initial events) in *.
  destruct e; simpl.
  - unfold setQuery. destruct (String.eqb text (query s)); [reflexivity|].
    unfold effect; simpl. destruct (String.length text <? 1)%nat; reflexivity.
  - unfold elapse; simpl.
    destruct (timer s) as [[due closure]|] eqn:E; [|now left].
    destruct (Ht due closure eq_refl) as [-> Hq].
    destruct (due <=? now s + dt)%nat; [right|now left].
    split; [exact Hq|reflexivity].
  - destruct (is_inflight id s); [|reflexivity].
    unfold detached.
    destruct (getSymbols_settle r) as [err|symbols] eqn:Hs.
    + now rewrite (lookup_resume_failure r err _ Hs).
    + now rewrite (lookup_resume_success r symbols _ Hs).
  - unfold handleSelect. destruct (negb _); [|reflexivity].
    unfold effect; simpl. destruct (String.length _ <? 1)%nat; reflexivity.
  - destruct (0 <? List.length (results s))%nat; reflexivity.
Qed.

(** X14: a lookup that fails (rejected fetch, status that is not a
    success, body that does not parse) leaves the results, the open flag
    and the text as they were, ends loading, writes one line to the
    console and sends nothing. *)
Theorem lookup_failure_keeps_results :
  forall (s : State) (id : nat) (r : FetchResult (list Symbol)) (e : Error),
    is_inflight id s = true ->
    getSymbols_settle r = inl e ->
    let s' := step s (Settles id r) in
    results s' = results s
    /\ isOpen s' = isOpen s
    /\ query s' = query s
    /\ timer s' = timer s
    /\ loading s' = false
    /\ console s' = (console s ++ ["Search error:"])%list
    /\ network s' = network s.
Proof.
  intros s id r e Hin Hr. simpl. rewrite Hin. unfold detached.
  rewrite (lookup_resume_failure r e _ Hr). now repeat split.
Qed.

(** X15: selecting a result puts name (code) in the box, closes the
    list, hands the symbol to onSelect once and keeps the results; as the
    text changed, the debounce timer starts again, and 300ms later a
    lookup for that display text is sent. *)
Theorem select_schedules_a_lookup :
  forall (s : State) (symbol : Symbol),
    display_text symbol <> query s ->
    let s' := step s (Select symbol) in
    query s' = display_text symbol
    /\ isOpen s' = false
    /\ list_shown s' = false
    /\ selected s' = (selected s ++ [symbol])%list
    /\ results s' = results s
    /\ network s' = network s
    /\ (forall dt, dt < debounce -> network (step s' (Elapse dt)) = network s)
    /\ (forall dt, debounce <= dt ->
          network (step s' (Elapse dt))
          = (network s
             ++ [getSymbols_request (Some (display_text symbol)) None])%list).
Proof.
  intros s symbol Hne. cbv zeta.
  assert (Hstep : step s (Select symbol)
                  = with_timer (Some (now s + debounce, display_text symbol))
                      (with_timer None
                         (onSelect symbol
                            (setIsOpen false
                               (with_query (display_text symbol) s))))).
  { simpl. unfold handleSelect. fold (display_text symbol).
    destruct (String.eqb_spec (display_text symbol) (query s));
      [contradiction|]. simpl.
    unfold effect; simpl.
    now rewrite (nonempty_length _ (display_text_nonempty symbol)). }
  rewrite Hstep. repeat split.
  - intros dt Hdt. simpl. unfold elapse; simpl.
    destruct (Nat.leb_spec (now s + debounce) (now s + dt)); [lia|reflexivity].
  - intros dt Hdt. simpl. unfold elapse; simpl.
    destruct (Nat.leb_spec (now s + debounce) (now s + dt)); [reflexivity|lia].
Qed.

End SearchBoxFacts.

(** ** More on the risk panel *)

Section RiskPanelFacts.
Import JS Api Panels PanelKeys PercentBoxes.

(** X16: a percentage typed in the risk, stop or cap box is stored
    divided by 100 and shown multiplied by 100, both in binary64, so the
    box shows (n / 100) * 100 for a typed n: 1, 3 and 10 come back as
    typed, 7 comes back as 7.000000000000001. An emptied box stores
    nothing, so the next query has no such parameter, and the box shows
    its fallback 1, 3 or 10 again. *)
Theorem percent_boxes_round_trip :
  forall (p : Top10Params) (typed : Typed),
    let shown :=
      match typed with
      | Some n => fun _ => (n / 100 * 100)%float
      | None => fun fallback => fallback
      end in
    risk_box (spread p (change_risk_pct (percent_value typed))) = shown 1%float
    /\ stop_box (spread p (change_stop_pct (percent_value typed))) = shown 3%float
    /\ cap_box (spread p (change_cap_pct (percent_value typed))) = shown 10%float
    /\ (typed = None ->
        get "risk_pct"
          (top10_searchParams (spread p (change_risk_pct (percent_value typed))))
        = None)
    /\ (1 / 100 * 100 = 1 /\ 3 / 100 * 100 = 3 /\ 10 / 100 * 100 = 10)%float
    /\ (7 / 100 * 100)%float = 7.000000000000001%float
    /\ (7 / 100 * 100)%float <> 7%float.
Proof.
  intros p typed. cbv zeta.
  split; [destruct typed; reflexivity|].
  split; [destruct typed; reflexivity|].
  split; [destruct typed; reflexivity|].
  split.
  { intros ->. rewrite top10_query_lookup. reflexivity. }
  split; [repeat split; vm_compute; reflexivity|].
  split; [vm_compute; reflexivity|].
  intros E.
  pose proof (f_equal (fun x => PrimFloat.eqb x 7%float) E) as H.
  vm_compute in H. discriminate H.
Qed.

(** X17: an account size of 0 or less switches the risk view off, and is
    sent to the ranking service all the same. *)
Theorem nonpositive_account_size_is_still_sent :
  forall (s : Home.State) (a : number),
    account_size (Home.contents (Home.filters s)) = Some a ->
    PrimFloat.leb a 0%float = true ->
    Home.showRisk s = false
    /\ get "account_size"
         (search (getTop10_request (Home.contents (Home.filters s))))
       = Some (NumberText a).
Proof.
  intros s a Ha Hle. split.
  - unfold Home.showRisk. rewrite Ha. now apply not_positive_when_le_zero.
  - unfold getTop10_request; simpl. rewrite top10_query_lookup.
    unfold property; simpl. now rewrite Ha.
Qed.

End RiskPanelFacts.

(** ** Concrete instances of the further properties *)

Section MoreInstances.
Import JS Api Panels Effect.

(** A quote request that is answered with a 404. *)
Lemma quote_lookup_leaves_ranked_list_alone_instance :
  let s :=
    Home.run Home.initial
      [Home.Mount; Home.Top10Settles 0 (Samples.ok Samples.all_markets);
       Home.SelectSymbol Samples.sym_sk] in
  let s' := Home.step s (Home.QuoteSettles 1 (HttpResponse false None)) in
  Home.top10 s' = Home.top10 s /\ Home.asof s' = Home.asof s
  /\ Home.loading s' = Home.loading s
  /\ Home.error s' = Home.error s /\ Home.filters s' = Home.filters s
  /\ Home.network s' = Home.network s
  /\ Home.selectedQuote s' = Home.selectedQuote s
  /\ Home.console s' = (Home.console s ++ ["Failed to fetch quote:"])%list.
Proof.
  exact (quote_lookup_leaves_ranked_list_alone
           (Home.run Home.initial
              [Home.Mount; Home.Top10Settles 0 (Samples.ok Samples.all_markets);
               Home.SelectSymbol Samples.sym_sk])
           1 (HttpResponse false None) eq_refl).
Defined.

(** Two fetches in flight, the first one answered. *)
Lemma loading_ends_with_the_first_answer_instance :
  let s :=
    Home.run Home.initial
      [Home.Mount; Home.Change (change_market (Only KOSDAQ))] in
  let s' := Home.step s (Home.Top10Settles 0 (Samples.ok Samples.all_markets)) in
  Home.loading s' = false
  /\ Home.is_inflight 1 Home.await_top10 s' = true
  /\ Home.network (Home.step s' Home.ClickRefresh)
     = (Home.network s
        ++ [getTop10_request (Home.contents (Home.filters s))])%list.
Proof.
  apply (loading_ends_with_the_first_answer
           (Home.run Home.initial
              [Home.Mount; Home.Change (change_market (Only KOSDAQ))])
           0 1 (Samples.ok Samples.all_markets)).
  - discriminate.
  - reflexivity.
  - reflexivity.
Defined.

(** A lookup for SK, after results for S are on screen, is rejected. *)
Lemma lookup_failure_keeps_results_instance :
  let s :=
    SearchBar.run SearchBar.initial
      [SearchBar.Input "S"; SearchBar.Elapse 300;
       SearchBar.Settles 0 (Samples.ok [Samples.sym_samsung; Samples.sym_sk]);
       SearchBar.Input "SK"; SearchBar.Elapse 300] in
  let s' := SearchBar.step s (SearchBar.Settles 1 NetworkFailure) in
  SearchBar.results s' = SearchBar.results s
  /\ SearchBar.isOpen s' = SearchBar.isOpen s
  /\ SearchBar.query s' = SearchBar.query s
  /\ SearchBar.timer s' = SearchBar.timer s
  /\ SearchBar.loading s' = false
  /\ SearchBar.console s' = (SearchBar.console s ++ ["Search error:"])%list
  /\ SearchBar.network s' = SearchBar.network s.
Proof.
  exact (lookup_failure_keeps_results
           (SearchBar.run SearchBar.initial
              [SearchBar.Input "S"; SearchBar.Elapse 300;
               SearchBar.Settles 0
                 (Samples.ok [Samples.sym_samsung; Samples.sym_sk]);
               SearchBar.Input "SK"; SearchBar.Elapse 300])
           1 NetworkFailure TypeError_fetch eq_refl eq_refl).
Defined.

(** A click on SK hynix in the results for SK. *)
Lemma select_schedules_a_lookup_instance :
  let s :=
    SearchBar.run SearchBar.initial
      [SearchBar.Input "SK"; SearchBar.Elapse 300;
       SearchBar.Settles 0 (Samples.ok [Samples.sym_sk])] in
  let s' := SearchBar.step s (SearchBar.Select Samples.sym_sk) in
  SearchBar.query s' = "SK hynix (000660)"
  /\ SearchBar.isOpen s' = false
  /\ SearchBar.list_shown s' = false
  /\ SearchBar.selected s' = (SearchBar.selected s ++ [Samples.sym_sk])%list
  /\ SearchBar.results s' = SearchBar.results s
  /\ SearchBar.network s' = SearchBar.network s
  /\ (forall dt, dt < SearchBar.debounce ->
        SearchBar.network (SearchBar.step s' (SearchBar.Elapse dt))
        = SearchBar.network s)
  /\ (forall dt, SearchBar.debounce <= dt ->
        SearchBar.network (SearchBar.step s' (SearchBar.Elapse dt))
        = (SearchBar.network s
           ++ [getSymbols_request (Some "SK hynix (000660)") None])%list).
Proof.
  apply (select_schedules_a_lookup
           (SearchBar.run SearchBar.initial
              [SearchBar.Input "SK"; SearchBar.Elapse 300;
               SearchBar.Settles 0 (Samples.ok [Samples.sym_sk])])
           Samples.sym_sk).
  discriminate.
Defined.

(** An account size of -100 typed in the panel. *)
Lemma nonpositive_account_size_is_still_sent_instance :
  let s :=
    Home.run Home.initial
      [Home.Mount; Home.Change (change_account_size (Some (-100)%float))] in
  Home.showRisk s = false
  /\ get "account_size"
       (search (getTop10_request (Home.contents (Home.filters s))))
     = Some (NumberText (-100)%float).
Proof.
  exact (nonpositive_account_size_is_still_sent
           (Home.run Home.initial
              [Home.Mount;
               Home.Change (change_account_size (Some (-100)%float))])
           (-100)%float eq_refl eq_refl).
Defined.

End MoreInstances.
